(** * make_wrappers.py: toolchain wrapper generator

    A shallow embedding of [make_wrappers.py] and the properties of its
    name normaliser, architecture resolver and wrapper emitter.

    Strings are [string]; the dictionaries of the script ([FLAGS_INFO],
    [ARCHES], an [arch_info] entry) are [gmap]s keyed by strings, the
    [BLACKLIST] set is a [gset]; the [bin/] output directory is a finite
    map from paths to artifacts; exceptions are an explicit result type
    threaded through a state-and-exception monad.

    The file has three parts: the program (the fragment of Python's [re]
    the tables use, the tables, the messages, the file-system primitives,
    [wrap_tool], [wrap] and [main]); the vocabulary of the properties; the
    properties. *)

From Stdlib Require Import ZArith Ascii String.

From stdpp Require Import base option strings gmap list.

Local Open Scope string_scope.

(** ** Characters and strings that cannot be typed as plain literals *)

Definition dquote : string := String "034"%char EmptyString.

Definition squote : string := String "039"%char EmptyString.

Definition newline : ascii := "010"%char.

Definition nl : string := String newline EmptyString.

(** ** Python's [re] on the fragment the tables use

    The patterns of [TOOL_FIXUPS] and [ARCH_FIXUPS] use literal characters,
    character classes, the anchors [^] and [$], alternation and capturing
    groups; none uses a repetition operator.  Python's [re] is a
    backtracking matcher: alternatives are tried left to right and the
    first overall match wins. *)

Inductive cls_item :=
| CChar (c : ascii)
| CRange (lo hi : ascii).

Inductive regex :=
| Eps
| Chr (c : ascii)
| Cls (items : list cls_item)
| Bol
| Eol
| Seq (r1 r2 : regex)
| Alt (r1 r2 : regex)
| Grp (i : nat) (r : regex).

(** A literal run of characters. *)
Fixpoint lit (s : string) : regex :=
  match s with
  | EmptyString => Eps
  | String c s' => Seq (Chr c) (lit s')
  end.

Definition ascii_leb (a b : ascii) : bool := (nat_of_ascii a <=? nat_of_ascii b)%nat.

Definition cls_item_mem (a : ascii) (it : cls_item) : bool :=
  match it with
  | CChar c => Ascii.eqb a c
  | CRange lo hi => ascii_leb lo a && ascii_leb a hi
  end.

Definition cls_mem (a : ascii) (items : list cls_item) : bool :=
  existsb (cls_item_mem a) items.

(** The matcher's cursor: the offset in the subject, the text still to be
    read, and the groups captured so far (most recent first). *)
Record cursor := Cursor {
  pos : nat;
  rest : string;
  caps : list (nat * string)
}.

Definition advance (cur : cursor) (s' : string) : cursor :=
  {| pos := S (pos cur); rest := s'; caps := caps cur |}.

Fixpoint take_str (n : nat) (s : string) : string :=
  match n, s with
  | S n', String c s' => String c (take_str n' s')
  | _, _ => EmptyString
  end.

(** [$] without [re.MULTILINE]: at the end of the subject, or just before a
    newline that is its last character. *)
Definition at_eol (s : string) : bool :=
  match s with
  | EmptyString => true
  | String c EmptyString => Ascii.eqb c newline
  | _ => false
  end.

Fixpoint rmatch (r : regex) (cur : cursor) (k : cursor -> option cursor)
  : option cursor :=
  match r with
  | Eps => k cur
  | Chr c =>
      match rest cur with
      | String a s' => if Ascii.eqb a c then k (advance cur s') else None
      | EmptyString => None
      end
  | Cls items =>
      match rest cur with
      | String a s' => if cls_mem a items then k (advance cur s') else None
      | EmptyString => None
      end
  | Bol => if (pos cur =? 0)%nat then k cur else None
  | Eol => if at_eol (rest cur) then k cur else None
  | Seq r1 r2 => rmatch r1 cur (fun c1 => rmatch r2 c1 k)
  | Alt r1 r2 =>
      match rmatch r1 cur k with
      | Some c => Some c
      | None => rmatch r2 cur k
      end
  | Grp i r1 =>
      rmatch r1 cur (fun c1 =>
        k {| pos := pos c1; rest := rest c1;
             caps := (i, take_str (pos c1 - pos cur) (rest cur)) :: caps c1 |})
  end.

(** [pattern.match] anchored at offset [p] of the subject, whose remaining
    text is [s]. *)
Definition match_at (r : regex) (p : nat) (s : string) : option cursor :=
  rmatch r {| pos := p; rest := s; caps := [] |} Some.

(** A match object, as far as replacement functions look at it. *)
Definition group (m : cursor) (i : nat) : option string :=
  snd <$> List.find (fun c => (fst c =? i)%nat) (caps m).

(** The replacement argument of [re.sub]: a string or a callable.  The
    literal replacements of the tables contain no backslash, so the template
    is the string itself; a callable that returns [None] contributes
    nothing. *)
Inductive repl :=
| ReplStr (s : string)
| ReplFn (f : cursor -> option string).

Definition expand (rp : repl) (m : cursor) : string :=
  match rp with
  | ReplStr s => s
  | ReplFn f => default "" (f m)
  end.

(** [re.sub]: scan the subject from the left; at each offset not covered by
    the previous match try the pattern, replace a match and resume after it,
    otherwise copy one character.  [skip] counts the characters still covered
    by the last match.  An empty match is replaced and the scan moves on by
    one character. *)
Fixpoint sub_scan (r : regex) (rp : repl) (p : nat) (s : string) (skip : nat)
  : string :=
  match skip with
  | S n =>
      match s with
      | EmptyString => EmptyString
      | String _ s' => sub_scan r rp (S p) s' n
      end
  | O =>
      match match_at r p s with
      | Some m =>
          expand rp m +:+
          match s with
          | EmptyString => EmptyString
          | String a s' =>
              match (pos m - p)%nat with
              | O => String a (sub_scan r rp (S p) s' 0)
              | S n => sub_scan r rp (S p) s' n
              end
          end
      | None =>
          match s with
          | EmptyString => EmptyString
          | String a s' => String a (sub_scan r rp (S p) s' 0)
          end
      end
  end.

Definition re_sub (pattern : regex) (rp : repl) (s : string) : string :=
  sub_scan pattern rp 0 s 0.

(** ** The static tables *)

Definition TOOLS : list string :=
  [ "accel-nvptx-none-gcc"; "addr2line"; "ar"; "as"; "c++filt"; "cpp"; "dwp";
    "elfedit"; "g++"; "gappletviewer"; "gc-analyze"; "gcc"; "gcc-ar";
    "gcc-nm"; "gcc-ranlib"; "gccbrig"; "gccgo"; "gcj"; "gcj-dbtool";
    "gcj-wrapper"; "gcjh"; "gcov"; "gcov-dump"; "gcov-tool"; "gdc";
    "gfortran"; "gij"; "gjar"; "gjarsigner"; "gjavah"; "gjdoc"; "gkeytool";
    "gnat"; "gnatbind"; "gnatchop"; "gnatclean"; "gnatfind"; "gnatgcc";
    "gnathtml"; "gnative2ascii"; "gnatkr"; "gnatlink"; "gnatls"; "gnatmake";
    "gnatname"; "gnatprep"; "gnatxref"; "go"; "gofmt"; "gold"; "gorbd";
    "gprof"; "grmic"; "grmid"; "grmiregistry"; "gserialver"; "gtnameserv";
    "jcf-dump"; "jv-convert"; "ld"; "ld.bfd"; "ld.gold"; "nm"; "objcopy";
    "objdump"; "pkg-config"; "ranlib"; "readelf"; "size"; "strings"; "strip" ].

Definition BLACKLIST : gset string :=
  list_to_set [ "accel-nvptx-none-gcc"; "pkg-config" ].

(** [TOOL_FIXUPS].  The first pattern is written ['-[0-9.]\+$'] in the
    script: in Python's [re] syntax a backslash before [+] makes it the
    literal character, so the pattern reads: a dash, one digit or dot, a
    plus sign, end of subject. *)
Definition re_version : regex :=
  Seq (Chr "-") (Seq (Cls [CRange "0" "9"; CChar "."]) (Seq (Chr "+") Eol)).

(** ['^(gold|ld\.(bfd|gold))$'] *)
Definition re_ld : regex :=
  Seq Bol
    (Seq (Grp 1 (Alt (lit "gold")
                     (Seq (lit "ld.") (Grp 2 (Alt (lit "bfd") (lit "gold"))))))
         Eol).

(** ['^gcc-(ar|nm|ranlib)$'] *)
Definition re_gcc_binutils : regex :=
  Seq Bol
    (Seq (lit "gcc-")
         (Seq (Grp 1 (Alt (lit "ar") (Alt (lit "nm") (lit "ranlib")))) Eol)).

Definition TOOL_FIXUPS : list (regex * repl) :=
  [ (re_version, ReplStr "");
    (re_ld, ReplStr "ld");
    (re_gcc_binutils, ReplFn (fun m => group m 1)) ].

(** [None] in the table means: untested, may cause problems; the empty
    string means: nothing needed. *)
Definition FLAGS_INFO_items : list (string * option string) :=
  [ ("addr2line", Some ""); ("ar", Some ""); ("as", None);
    ("c++filt", Some ""); ("cpp", Some "gcc_flags"); ("dwp", Some "");
    ("elfedit", Some ""); ("g++", Some "gcc_flags"); ("gappletviewer", None);
    ("gc-analyze", None); ("gcc", Some "gcc_flags"); ("gcc-ar", Some "");
    ("gcc-nm", Some ""); ("gcc-ranlib", Some ""); ("gccbrig", None);
    ("gccgo", None); ("gcj", None); ("gcj-dbtool", None);
    ("gcj-wrapper", None); ("gcjh", None); ("gcov", None);
    ("gcov-dump", None); ("gcov-tool", None); ("gdc", Some "gcc_flags");
    ("gfortran", Some "gcc_flags"); ("gij", None); ("gjar", None);
    ("gjarsigner", None); ("gjavah", None); ("gjdoc", None);
    ("gkeytool", None); ("gnat", None); ("gnatbind", None);
    ("gnatchop", None); ("gnatclean", None); ("gnatfind", None);
    ("gnatgcc", None); ("gnathtml", None); ("gnative2ascii", None);
    ("gnatkr", None); ("gnatlink", None); ("gnatls", None);
    ("gnatmake", None); ("gnatname", None); ("gnatprep", None);
    ("gnatxref", None); ("go", None); ("gofmt", None); ("gorbd", None);
    ("gprof", None); ("grmic", None); ("grmid", None);
    ("grmiregistry", None); ("gserialver", None); ("gtnameserv", None);
    ("jcf-dump", None); ("jv-convert", None); ("ld", None); ("nm", Some "");
    ("objcopy", None); ("objdump", Some ""); ("ranlib", Some "");
    ("readelf", Some ""); ("size", Some ""); ("strings", Some "");
    ("strip", Some "") ].

Definition FLAGS_INFO : gmap string (option string) := list_to_map FLAGS_INFO_items.

(** ['-pc-'], ['-unknown-'], ['^i[456]86-'] *)
Definition re_pc : regex := lit "-pc-".

Definition re_unknown : regex := lit "-unknown-".

Definition re_i386 : regex :=
  Seq Bol (Seq (Chr "i") (Seq (Cls [CChar "4"; CChar "5"; CChar "6"]) (lit "86-"))).

Definition ARCH_FIXUPS : list (regex * repl) :=
  [ (re_pc, ReplStr "-");
    (re_unknown, ReplStr "-");
    (re_i386, ReplStr "i386-") ].

Definition ARCHES_items : list (string * gmap string string) :=
  [ ("i386-linux-gnu",
      list_to_map [ ("wraps", "x86_64-linux-gnu"); ("gcc_flags", "-m32") ]);
    ("x86_64-linux-gnux32",
      list_to_map [ ("wraps", "x86_64-linux-gnu"); ("gcc_flags", "-mx32") ]) ].

Definition ARCHES : gmap string (gmap string string) := list_to_map ARCHES_items.

(** ** [apply_fixups] *)

Definition apply_fixups (s : string) (fixups : list (regex * repl)) : string :=
  foldl (fun acc '(pattern, rp) => re_sub pattern rp acc) s fixups.

Definition normalize (tool : string) : string := apply_fixups tool TOOL_FIXUPS.

(** ** Messages

    [pipes.quote] (the standard library's [shlex.quote]): the empty string
    becomes two quotes, a string of safe characters is returned as it is, any
    other string is put between single quotes with each single quote inside
    it written as quote, double-quoted quote, quote. *)

Definition is_safe_char (a : ascii) : bool :=
  ascii_leb "a" a && ascii_leb a "z"
  || ascii_leb "A" a && ascii_leb a "Z"
  || ascii_leb "0" a && ascii_leb a "9"
  || existsb (Ascii.eqb a) (list_ascii_of_string "_@%+=:,./-").

Fixpoint all_safe (s : string) : bool :=
  match s with
  | EmptyString => true
  | String a s' => is_safe_char a && all_safe s'
  end.

Fixpoint escape_squotes (s : string) : string :=
  match s with
  | EmptyString => EmptyString
  | String a s' =>
      if Ascii.eqb a "039"
      then squote +:+ dquote +:+ squote +:+ dquote +:+ squote +:+ escape_squotes s'
      else String a (escape_squotes s')
  end.

Definition quote (s : string) : string :=
  if String.eqb s "" then squote +:+ squote
  else if all_safe s then s
  else squote +:+ escape_squotes s +:+ squote.

Definition feedback_url : string := "https://github.com/o11c/toolchain-arch-wrappers".

Definition safe_msg (tool : string) : string :=
  "# tool " +:+ dquote +:+ tool +:+ dquote +:+ " is believed to be safe".

Definition warning_text (tool : string) : string :=
  "Warning: untested tool " +:+ dquote +:+ tool +:+ dquote
  +:+ ". Please report your results to " +:+ feedback_url.

Definition warning_msg (tool : string) : string :=
  "echo " +:+ quote (warning_text tool) +:+ " >&2".

(** ** The world the script acts on

    The output directory is a flat finite map from paths to artifacts: a
    regular file with its text and permission bits, or a symbolic link with
    its target.  The directory [bin] is taken to exist and to be writable,
    and two paths are the same when they are the same string.  Standard
    output is the list of printed lines. *)

Inductive node :=
| File (content : string) (mode : Z)
| Symlink (target : string).

Record World := mkWorld {
  fs : gmap string node;
  stdout : list string
}.

Definition set_fs (f : gmap string node -> gmap string node) (w : World) : World :=
  {| fs := f (fs w); stdout := stdout w |}.

Inductive exn :=
| AttributeError (attr : string)
| KeyError (key : string)
| TypeError
| FileNotFoundError (path : string)
| FileExistsError (path : string)
| OSError (path : string).

Inductive outcome (A : Type) :=
| Ok (a : A)
| Raise (e : exn).

Arguments Ok {A} a.

Arguments Raise {A} e.

(** Computations: state passing, with the state kept when an exception is
    raised (what was written stays written). *)
Definition M (A : Type) : Type := World -> outcome A * World.

Definition ret {A} (a : A) : M A := fun w => (Ok a, w).

Definition raise {A} (e : exn) : M A := fun w => (Raise e, w).

Definition bind {A B} (m : M A) (f : A -> M B) : M B :=
  fun w => match m w with
           | (Ok a, w') => f a w'
           | (Raise e, w') => (Raise e, w')
           end.

Definition try_except {A} (m : M A) (handler : exn -> M A) : M A :=
  fun w => match m w with
           | (Ok a, w') => (Ok a, w')
           | (Raise e, w') => handler e w'
           end.

Declare Scope py_scope.

Delimit Scope py_scope with py.

Notation "x <- m ; k" := (bind m (fun x => k))
  (at level 100, m at next level, right associativity) : py_scope.

Notation "m ;; k" := (bind m (fun _ => k))
  (at level 100, right associativity) : py_scope.

Local Open Scope py_scope.

Fixpoint for_each {A} (l : list A) (body : A -> M unit) : M unit :=
  match l with
  | [] => ret tt
  | x :: l' => body x ;; for_each l' body
  end.

(** Attribute access and subscripting. *)
Definition getattr {A} (name : string) (field : option A) : M A :=
  match field with
  | Some a => ret a
  | None => raise (AttributeError name)
  end.

Definition getitem {V} (d : gmap string V) (key : string) : M V :=
  match d !! key with
  | Some v => ret v
  | None => raise (KeyError key)
  end.

(** [dict.get(key)] with the default [None]: an absent key and a key bound to
    [None] are the same to the caller. *)
Definition dict_get {V} (d : gmap string (option V)) (key : string) : option V :=
  default None (d !! key).

(** [print(line)] *)
Definition print (line : string) : M unit :=
  fun w => (Ok tt, {| fs := fs w; stdout := stdout w ++ [line] |}).

(** Mode constants, written in octal in the script: [0o100000], [0o111],
    [0o666], [0o7777]. *)
Definition S_IFREG : Z := 0x8000.

Definition mode_0o111 : Z := 0x49.

Definition mode_0o666 : Z := 0x1b6.

Definition mode_0o7777 : Z := 0xfff.

Section Primitives.

(** The search path, as [shutil.which] sees it, and the process umask.  The
    wrappers written to [bin] are taken not to change what a lookup of a
    wrapped tool finds. *)
Variable which : string -> option string.

Variable umask : Z.

(** [os.remove(path)] *)
Definition os_remove (path : string) : M unit :=
  fun w => match fs w !! path with
           | Some _ => (Ok tt, set_fs (delete path) w)
           | None => (Raise (FileNotFoundError path), w)
           end.

(** [os.symlink(src, dst)]: [src] must be a path (not [None]) and [dst] must
    not exist. *)
Definition os_symlink (src : option string) (dst : string) : M unit :=
  match src with
  | None => raise TypeError
  | Some target =>
      fun w => match fs w !! dst with
               | Some _ => (Raise (FileExistsError dst), w)
               | None => (Ok tt, set_fs (insert dst (Symlink target)) w)
               end
  end.

(** The permission bits of a file created by [open]: [0o666 & ~umask]. *)
Definition creat_mode : Z := Z.land mode_0o666 (Z.lnot umask).

(** [open(path, 'w')]: a new file gets the creation mode, an existing regular
    file is truncated.  Opening through a symbolic link is outside this flat
    model: the emitter only opens a path it has just removed. *)
Definition open_w (path : string) : M unit :=
  fun w => match fs w !! path with
           | None => (Ok tt, set_fs (insert path (File "" creat_mode)) w)
           | Some (File _ m) => (Ok tt, set_fs (insert path (File "" m)) w)
           | Some (Symlink _) => (Raise (OSError path), w)
           end.

(** [os.stat(path).st_mode] *)
Definition os_stat_mode (path : string) : M Z :=
  fun w => match fs w !! path with
           | Some (File _ m) => (Ok (Z.lor S_IFREG m), w)
           | Some (Symlink _) => (Raise (OSError path), w)
           | None => (Raise (FileNotFoundError path), w)
           end.

(** [os.chmod(path, mode)]: the permission bits of [mode] replace the file's. *)
Definition os_chmod (path : string) (mode : Z) : M unit :=
  fun w => match fs w !! path with
           | Some (File c _) =>
               (Ok tt, set_fs (insert path (File c (Z.land mode mode_0o7777))) w)
           | Some (Symlink _) => (Raise (OSError path), w)
           | None => (Raise (FileNotFoundError path), w)
           end.

(** [script.write(text)] on the file opened at [path]. *)
Definition file_write (path : string) (text : string) : M unit :=
  fun w => match fs w !! path with
           | Some (File c m) => (Ok tt, set_fs (insert path (File (c +:+ text) m)) w)
           | _ => (Raise (OSError path), w)
           end.

(** ** The parsed command line

    [argparse] returns a namespace with the attributes [arch], [tools],
    [absolute] and [symlinks]; [wrap] adds [prefix] and [arch_info] to it.
    An attribute that has not been set is [None] here, and reading it raises
    [AttributeError].  An empty [tools] stands for no tool given. *)
Record Namespace := mkNamespace {
  arch : string;
  tools : list string;
  absolute : bool;
  symlinks : bool;
  prefix : option string;
  arch_info : option (gmap string string)
}.

Definition set_prefix (p : string) (c : Namespace) : Namespace :=
  mkNamespace (arch c) (tools c) (absolute c) (symlinks c) (Some p) (arch_info c).

Definition set_arch (a : string) (c : Namespace) : Namespace :=
  mkNamespace a (tools c) (absolute c) (symlinks c) (prefix c) (arch_info c).

Definition set_arch_info (i : gmap string string) (c : Namespace) : Namespace :=
  mkNamespace (arch c) (tools c) (absolute c) (symlinks c) (prefix c) (Some i).

(** ['%s'] of a value that is a string or [None]. *)
Definition fmt_s (v : option string) : string := default "None" v.

Definition script_text (warning : string) (executable : option string)
    (flags : string) : string :=
  "#!/bin/sh" +:+ nl
  +:+ warning +:+ nl
  +:+ "exec " +:+ fmt_s executable +:+ " " +:+ flags +:+ " "
  +:+ dquote +:+ "$@" +:+ dquote +:+ nl.

(** ** [wrap_tool] *)
Definition wrap_tool (tool : string) (config : Namespace) : M unit :=
  pfx <- getattr "prefix" (prefix config);
  let filename := "bin/" +:+ pfx +:+ "-" +:+ tool in
  info <- getattr "arch_info" (arch_info config);
  wraps <- getitem info "wraps";
  let executable := wraps +:+ "-" +:+ tool in
  let tool := apply_fixups tool TOOL_FIXUPS in
  try_except (os_remove filename)
    (fun e => match e with FileNotFoundError _ => ret tt | _ => raise e end);;
  if bool_decide (tool ∈ BLACKLIST) then ret tt else
  let flags_var := dict_get FLAGS_INFO tool in
  fw <- match flags_var with
        | Some fv =>
            flags <- (if String.eqb fv "" then ret fv else getitem info fv);
            ret (flags, safe_msg tool)
        | None => ret ("", warning_msg tool)
        end;
  let '(flags, warning) := fw in
  let executable :=
    if absolute config || symlinks config then which executable
    else Some executable in
  if symlinks config && String.eqb flags "" && bool_decide (is_Some flags_var)
  then os_symlink executable filename
  else
    open_w filename;;
    st_mode <- os_stat_mode filename;
    os_chmod filename (Z.lor mode_0o111 st_mode);;
    file_write filename (script_text warning executable flags).

(** ** [wrap] and [main] *)
Definition wrap (config : Namespace) : M Namespace :=
  let config := set_prefix (arch config) config in
  let config := set_arch (apply_fixups (arch config) ARCH_FIXUPS) config in
  config <- try_except
              (info <- getitem ARCHES (arch config);
               ret (set_arch_info info config))
              (fun e => match e with
                        | KeyError _ =>
                            print ("Arch " +:+ arch config +:+ " not found");;
                            ret config
                        | _ => raise e
                        end);
  for_each (match tools config with [] => TOOLS | ts => ts end)
           (fun tool => wrap_tool tool config);;
  ret config.

Definition parse_args (a : string) (ts : list string) (abs sym : bool) : Namespace :=
  mkNamespace a ts abs sym None None.

Definition main (a : string) (ts : list string) (abs sym : bool) : M unit :=
  wrap (parse_args a ts abs sym);; ret tt.

End Primitives.

(** * Vocabulary of the properties

    Names for what the statements below talk about: the single rules of the
    normaliser, the three-way classification the script encodes in
    [FLAGS_INFO], the path of a wrapper, what a call leaves at that path,
    and a few concrete search paths and configurations. *)

(** The subject without its first [n] characters. *)
Fixpoint drop_str (n : nat) (s : string) : string :=
  match n, s with
  | S n', String _ s' => drop_str n' s'
  | _, _ => s
  end.

(** The three rules of [TOOL_FIXUPS], one at a time. *)
Definition strip_version (s : string) : string := re_sub re_version (ReplStr "") s.

Definition collapse_ld (s : string) : string := re_sub re_ld (ReplStr "ld") s.

Definition gcc_repl : repl := ReplFn (fun m => group m 1).

Definition collapse_gcc (s : string) : string := re_sub re_gcc_binutils gcc_repl s.

(** The script's convention for [FLAGS_INFO], named: no entry or [None] is
    unknown, the empty string is safe with no flags, any other string names
    the flag set to take from the architecture's entry. *)
Inductive SafetyEntry :=
| Unknown
| SafeNoFlags
| SafeNamedFlags (name : string).

Definition classify (canon : string) : SafetyEntry :=
  match dict_get FLAGS_INFO canon with
  | None => Unknown
  | Some fv => if String.eqb fv "" then SafeNoFlags else SafeNamedFlags fv
  end.

(** The lookup [wrap] performs: the architecture as requested goes through
    [ARCH_FIXUPS] and the result indexes [ARCHES]. *)
Definition resolve (a : string) : option (gmap string string) :=
  ARCHES !! apply_fixups a ARCH_FIXUPS.

(** The tools a run goes through: [config.tools or TOOLS]. *)
Definition requested (config : Namespace) : list string :=
  match tools config with [] => TOOLS | ts => ts end.

(** [filename] in [wrap_tool]. *)
Definition wrapper_path (pfx tool : string) : string :=
  "bin/" +:+ pfx +:+ "-" +:+ tool.

(** [put k v]: leave [v] at path [k], nothing when [v] is [None]. *)
Definition put (k : string) (v : option node) (m : gmap string node)
  : gmap string node :=
  match v with
  | Some n => <[k:=n]> m
  | None => delete k m
  end.

(** A run touches the output directory through a sequence of [put]s. *)
Definition puts (es : list (string * option node)) (m : gmap string node)
  : gmap string node :=
  foldl (fun acc e => put e.1 e.2 acc) m es.

(** The last value a sequence of [put]s leaves at a path, if it touches it. *)
Fixpoint last_put (es : list (string * option node)) (k : string)
  : option (option node) :=
  match es with
  | [] => None
  | e :: es' =>
      match last_put es' k with
      | Some v => Some v
      | None => if decide (e.1 = k) then Some e.2 else None
      end
  end.

(** The permission bits of a freshly written script. *)
Definition script_mode (umask : Z) : Z :=
  Z.land (Z.lor mode_0o111 (Z.lor S_IFREG (creat_mode umask))) mode_0o7777.

(** The [try: os.remove(filename) except FileNotFoundError: pass] of
    [wrap_tool]. *)
Definition quiet_remove (path : string) : M unit :=
  try_except (os_remove path)
    (fun e => match e with FileNotFoundError _ => ret tt | _ => raise e end).

(** What one call of [wrap_tool] leaves at the wrapper path and how it ends,
    for a configuration whose architecture is resolved: a function of the
    canonical name [canon] and of the executable reference [ref]. *)
Definition emitted_for (which : string -> option string) (umask : Z)
    (canon ref : string) (config : Namespace) (info : gmap string string)
  : outcome unit * option node :=
  let exe := if absolute config || symlinks config then which ref else Some ref in
  let link := match exe with
              | Some p => (Ok tt, Some (Symlink p))
              | None => (Raise TypeError, None)
              end in
  if bool_decide (canon ∈ BLACKLIST) then (Ok tt, None) else
  match classify canon with
  | Unknown =>
      (Ok tt, Some (File (script_text (warning_msg canon) exe "") (script_mode umask)))
  | SafeNoFlags =>
      if symlinks config then link
      else (Ok tt, Some (File (script_text (safe_msg canon) exe "") (script_mode umask)))
  | SafeNamedFlags fv =>
      match info !! fv with
      | None => (Raise (KeyError fv), None)
      | Some flags =>
          if symlinks config && String.eqb flags "" then link
          else (Ok tt, Some (File (script_text (safe_msg canon) exe flags) (script_mode umask)))
      end
  end.

Definition emitted (which : string -> option string) (umask : Z)
    (tool : string) (config : Namespace) (info : gmap string string)
    (wraps : string) : outcome unit * option node :=
  emitted_for which umask (normalize tool) (wraps +:+ "-" +:+ tool) config info.

(** How a computation ends and what it leaves behind do not depend on the
    directory it starts from: it ends in [r], after the [put]s [es] and the
    printed lines [out]. *)
Definition blind {A} (c : M A) : Prop :=
  exists r es out, forall w,
    (c w).1 = r /\ fs (c w).2 = puts es (fs w)
    /\ stdout (c w).2 = (stdout w ++ out)%list.

(** The check that an entry of [FLAGS_INFO] names no flag set other than
    [gcc_flags] and is not for a blacklisted tool. *)
Definition flags_entry_ok (entry : string * option string) : bool :=
  match entry with
  | (k, Some fv) =>
      (String.eqb fv "" || String.eqb fv "gcc_flags")
      && negb (bool_decide (k ∈ BLACKLIST))
  | (_, None) => true
  end.

(** A search path on which nothing is found, one on which every tool is in
    [/usr/bin], the usual umask [0o022], an empty output directory. *)
Definition no_path : string -> option string := fun _ => None.

Definition usr_bin (name : string) : option string := Some ("/usr/bin/" +:+ name).

Definition umask_022 : Z := 18.

Definition empty_world : World := mkWorld ∅ [].

Definition info_i386 : gmap string string :=
  list_to_map [ ("wraps", "x86_64-linux-gnu"); ("gcc_flags", "-m32") ].

(** An architecture entry that has no flag set, and a namespace with it. *)
Definition info_no_flags : gmap string string :=
  list_to_map [ ("wraps", "x86_64-linux-gnu") ].

Definition config_no_flags : Namespace :=
  mkNamespace "plain-linux-gnu" [] false false (Some "plain-linux-gnu")
    (Some info_no_flags).

(** The namespace as [wrap] has completed it for [i386-linux-gnu]. *)
Definition config_i386 (abs sym : bool) : Namespace :=
  mkNamespace "i386-linux-gnu" [] abs sym (Some "i386-linux-gnu") (Some info_i386).

(** C3 as stated: the script left at the wrapper path carries the warning
    built from the name the tool was requested under. *)
Definition warns_with_original_name (which : string -> option string) (umask : Z)
    (tool : string) (config : Namespace) (pfx : string) (w : World) : Prop :=
  exists exe flags mode,
    fs (wrap_tool which umask tool config w).2 !! wrapper_path pfx tool
    = Some (File (script_text (warning_msg tool) exe flags) mode).

(** * Properties *)

(** ** The regular-expression engine *)

Lemma drop_str_empty n : drop_str n "" = "".
Proof. by destruct n. Qed.

Lemma append_empty_l (x : string) : "" +:+ x = x.
Proof. reflexivity. Qed.

(** Past offset 0 a pattern that starts with [^] never matches, so the scan
    only drops what the last match covered and copies the rest. *)
Lemma sub_scan_bol_later r rp s : forall p skip,
  sub_scan (Seq Bol r) rp (S p) s skip = drop_str skip s.
Proof.
  induction s as [|a s IH]; intros p [|n]; simpl; rewrite ?IH; done.
Qed.

Lemma re_sub_anchored r rp s :
  re_sub (Seq Bol r) rp s =
    match match_at (Seq Bol r) 0 s with
    | Some m => expand rp m +:+ drop_str (pos m) s
    | None => s
    end.
Proof.
  unfold re_sub. destruct s as [|a s]; simpl.
  - destruct (match_at _ _ _); [by rewrite drop_str_empty | done].
  - destruct (match_at _ _ _) as [m|]; rewrite ?sub_scan_bol_later; [|done].
    rewrite Nat.sub_0_r. destruct (pos m); simpl; by rewrite ?sub_scan_bol_later.
Qed.

Lemma sub_scan_delete_empty r p skip : sub_scan r (ReplStr "") p "" skip = "".
Proof. destruct skip; simpl; [|done]. by destruct (match_at r p ""). Qed.

(** Replacing by the empty string only deletes: the result is never longer,
    and it is as long as the subject only when nothing was deleted. *)
Lemma sub_scan_delete_length r s : forall p skip,
  String.length (sub_scan r (ReplStr "") p s skip) + Nat.min skip (String.length s)
    <= String.length s
  /\ (String.length (sub_scan r (ReplStr "") p s 0) = String.length s ->
      sub_scan r (ReplStr "") p s 0 = s).
Proof.
  induction s as [|a s IH]; intros p skip.
  - rewrite !sub_scan_delete_empty. simpl. split; [lia|done].
  - assert (Hzero :
      String.length (sub_scan r (ReplStr "") p (String a s) 0)
        <= String.length (String a s)
      /\ (String.length (sub_scan r (ReplStr "") p (String a s) 0)
            = String.length (String a s) ->
          sub_scan r (ReplStr "") p (String a s) 0 = String a s)).
    { destruct (IH (S p) 0) as [Hle Heq]. cbn [sub_scan].
      destruct (match_at r p (String a s)) as [m|];
        cbn [expand]; rewrite ?append_empty_l.
      - destruct (pos m - p)%nat as [|n].
        + cbn [String.length]. split; [lia|]. intros [= Hlen]. by rewrite Heq.
        + destruct (IH (S p) n) as [Hle' _]. cbn [String.length].
          split; lia.
      - cbn [String.length]. split; [lia|]. intros [= Hlen]. by rewrite Heq. }
    destruct Hzero as [Hle0 Heq0]. split; [|exact Heq0].
    destruct skip as [|n]; [rewrite Nat.min_0_l; lia|].
    cbn [sub_scan]. destruct (IH (S p) n) as [Hle _].
    cbn [String.length]. lia.
Qed.

(** Case analysis on the next character of a subject that is a variable. *)
Ltac next_char :=
  match goal with
  | |- context [at_eol ?s] => is_var s; unfold at_eol
  | |- context [match ?s with EmptyString => _ | String _ _ => _ end] =>
      is_var s; destruct s
  | |- context [Ascii.eqb ?a ?b] =>
      is_var a; destruct (Ascii.eqb_spec a b); subst
  end; simpl.

(** The engine on some subjects, as Python's [re.sub] rewrites them. *)
Lemma re_sub_examples :
  re_sub re_pc (ReplStr "-") "a-pc-pc-b" = "a-pc-b"
  /\ re_sub re_pc (ReplStr "-") "x86_64-pc-linux-pc-gnu" = "x86_64-linux-gnu"
  /\ re_sub re_i386 (ReplStr "i386-") "i586-linux-gnu" = "i386-linux-gnu"
  /\ re_sub re_i386 (ReplStr "i386-") "i786-linux-gnu" = "i786-linux-gnu"
  /\ re_sub re_i386 (ReplStr "i386-") "xi686-linux-gnu" = "xi686-linux-gnu"
  /\ re_sub re_version (ReplStr "") "gcc-7" = "gcc-7"
  /\ re_sub re_version (ReplStr "") "gcc-7+" = "gcc"
  /\ re_sub re_version (ReplStr "") ("gcc-.+" +:+ nl) = "gcc" +:+ nl
  /\ re_sub re_ld (ReplStr "ld") "ld.gold" = "ld"
  /\ re_sub re_ld (ReplStr "ld") "ld.golds" = "ld.golds"
  /\ re_sub re_ld (ReplStr "ld") ("gold" +:+ nl) = "ld" +:+ nl
  /\ re_sub re_gcc_binutils gcc_repl "gcc-ranlib" = "ranlib"
  /\ re_sub re_gcc_binutils gcc_repl "gcc-ld" = "gcc-ld".
Proof. vm_compute. repeat split. Qed.

(** ** The name normaliser *)

Lemma normalize_rules s :
  normalize s = collapse_gcc (collapse_ld (strip_version s)).
Proof. reflexivity. Qed.

Lemma collapse_ld_cases s :
  collapse_ld s = s \/ collapse_ld s = "ld" \/ collapse_ld s = "ld" +:+ nl.
Proof.
  unfold collapse_ld, re_ld. rewrite re_sub_anchored. unfold match_at. simpl.
  repeat next_char; auto.
Qed.

Lemma collapse_gcc_cases s :
  collapse_gcc s = s
  \/ In (collapse_gcc s)
        ["ar"; "nm"; "ranlib"; "ar" +:+ nl; "nm" +:+ nl; "ranlib" +:+ nl].
Proof.
  unfold collapse_gcc, re_gcc_binutils. rewrite re_sub_anchored.
  unfold match_at. simpl.
  repeat next_char; auto 10.
Qed.

(** The two collapsing rules together reach a fixed point in one pass. *)
Lemma collapse_idempotent u :
  collapse_gcc (collapse_ld (collapse_gcc (collapse_ld u)))
  = collapse_gcc (collapse_ld u).
Proof.
  destruct (collapse_ld_cases u) as [Hu|[Hu|Hu]]; rewrite !Hu;
    try (vm_compute; reflexivity).
  destruct (collapse_gcc_cases u) as [Hg|Hg].
  - by rewrite !Hg, !Hu, !Hg.
  - unfold In in Hg.
    repeat (destruct Hg as [Hg|Hg]; [rewrite <- Hg; vm_compute; reflexivity|]).
    done.
Qed.

Lemma strip_version_length s :
  String.length (strip_version s) <= String.length s
  /\ (String.length (strip_version s) = String.length s -> strip_version s = s).
Proof.
  unfold strip_version, re_sub.
  destruct (sub_scan_delete_length re_version s 0 0) as [Hle Heq].
  split; [lia | exact Heq].
Qed.

Lemma collapse_ld_length s : String.length (collapse_ld s) <= String.length s.
Proof.
  unfold collapse_ld, re_ld. rewrite re_sub_anchored. unfold match_at. simpl.
  repeat next_char; lia.
Qed.

Lemma collapse_gcc_length s : String.length (collapse_gcc s) <= String.length s.
Proof.
  unfold collapse_gcc, re_gcc_binutils. rewrite re_sub_anchored.
  unfold match_at. simpl.
  repeat next_char; lia.
Qed.

(** C2, as the script behaves: the first fixup does not remove a version
    suffix.  Its pattern asks for a dash, a single digit or dot and a literal
    plus sign, so ["gcc-7.3.1"] is left as it is and does not normalise to
    the same name as ["gcc"]: it is then classified as unknown, where ["gcc"]
    is safe with [gcc_flags].  What the rule does strip is a suffix such as
    ["-7+"].  The comment above the rule in the script says: remove version
    numbers. *)
Theorem version_suffix_not_stripped :
  normalize "gcc-7.3.1" = "gcc-7.3.1"
  /\ normalize "gcc" = "gcc"
  /\ normalize "gcc-7.3.1" <> normalize "gcc"
  /\ classify (normalize "gcc-7.3.1") = Unknown
  /\ classify (normalize "gcc") = SafeNamedFlags "gcc_flags"
  /\ normalize "gcc-7+" = "gcc".
Proof. vm_compute. repeat split; congruence. Qed.

(** C10, as stated, fails: a name that ends in two suffixes of the shape the
    first rule strips loses one of them per pass. *)
Lemma normalize_not_idempotent :
  normalize (normalize "x-1+-1+") <> normalize "x-1+-1+".
Proof. vm_compute. congruence. Qed.

(** C10, amended: normalisation is idempotent on every input whose
    normalised form is left unchanged by the first (suffix-stripping) rule;
    the second pass then changes nothing. *)
Theorem normalize_idempotent_when_stripped (s : string) :
  strip_version (normalize s) = normalize s ->
  normalize (normalize s) = normalize s.
Proof.
  intros Hstrip. rewrite (normalize_rules (normalize s)), Hstrip.
  rewrite normalize_rules. apply collapse_idempotent.
Qed.

Lemma normalize_idempotent_when_stripped_witness :
  strip_version (normalize "gcc-ar") = normalize "gcc-ar"
  /\ normalize (normalize "gcc-ar") = normalize "gcc-ar".
Proof.
  split; [vm_compute; reflexivity|].
  apply (normalize_idempotent_when_stripped "gcc-ar"). vm_compute. reflexivity.
Defined.

(** The condition of the amended C10 is also necessary: when the first rule
    still strips something from the normalised name, a second pass yields a
    shorter name. *)
Lemma normalize_idempotent_only_when_stripped s :
  normalize (normalize s) = normalize s ->
  strip_version (normalize s) = normalize s.
Proof.
  intros Hidem. destruct (strip_version_length (normalize s)) as [Hle Heq].
  apply Heq. apply Nat.le_antisymm; [exact Hle|].
  rewrite <- Hidem at 1. rewrite (normalize_rules (normalize s)).
  etransitivity; [apply collapse_gcc_length|]. apply collapse_ld_length.
Qed.

(** On every name of the catalogue a second pass changes nothing. *)
Lemma normalize_idempotent_on_TOOLS :
  Forall (fun t => normalize (normalize t) = normalize t) TOOLS.
Proof.
  assert (forallb (fun t => String.eqb (normalize (normalize t)) (normalize t))
            TOOLS = true) as Hall by (vm_compute; reflexivity).
  apply Forall_forall. intros t Ht%list_elem_of_In.
  apply String.eqb_eq. by apply (proj1 (forallb_forall _ _) Hall).
Qed.

(** ** The tables, paths and directory updates *)

(** A tool with a flags entry is never blacklisted, and the only flag set
    the table names is [gcc_flags]. *)
Lemma flags_var_values canon fv :
  dict_get FLAGS_INFO canon = Some fv ->
  (fv = "" \/ fv = "gcc_flags") /\ canon ∉ BLACKLIST.
Proof.
  unfold dict_get. destruct (FLAGS_INFO !! canon) as [[x|]|] eqn:E; try done.
  simpl. intros [= ->].
  apply elem_of_list_to_map_2, list_elem_of_In in E.
  assert (forallb flags_entry_ok FLAGS_INFO_items = true) as Hall
    by (vm_compute; reflexivity).
  apply (proj1 (forallb_forall _ _) Hall) in E. simpl in E.
  apply andb_prop in E as [Hfv Hbl]. split.
  - apply orb_prop in Hfv as [H|H]; apply String.eqb_eq in H; auto.
  - apply negb_true_iff, bool_decide_eq_false in Hbl. done.
Qed.

(** Every architecture of the table wraps [x86_64-linux-gnu] and has a
    non-empty [gcc_flags]. *)
Lemma ARCHES_entries a info :
  ARCHES !! a = Some info ->
  info !! "wraps" = Some "x86_64-linux-gnu"
  /\ exists flags, info !! "gcc_flags" = Some flags /\ flags <> "".
Proof.
  intros E. apply elem_of_list_to_map_2 in E. unfold ARCHES_items in E.
  repeat (apply elem_of_cons in E as [E|E]; [injection E as -> ->|]).
  - split; [vm_compute; reflexivity|]. exists "-m32". split; [vm_compute; reflexivity|done].
  - split; [vm_compute; reflexivity|]. exists "-mx32". split; [vm_compute; reflexivity|done].
  - by apply elem_of_nil in E.
Qed.

Lemma append_cancel_l (s a b : string) : s +:+ a = s +:+ b -> a = b.
Proof. induction s as [|c s IH]; simpl; [done|]. intros [= H]. auto. Qed.

Lemma wrapper_path_inj pfx t1 t2 :
  wrapper_path pfx t1 = wrapper_path pfx t2 -> t1 = t2.
Proof.
  unfold wrapper_path. intros H.
  by do 3 apply append_cancel_l in H.
Qed.

Lemma lookup_put k v m k' :
  put k v m !! k' = if decide (k = k') then v else m !! k'.
Proof.
  destruct v; simpl; [apply lookup_insert | apply lookup_delete].
Qed.

Lemma puts_lookup es k : forall m,
  puts es m !! k = default (m !! k) (last_put es k).
Proof.
  induction es as [|e es IH]; intros m; [done|].
  change (puts (e :: es) m) with (puts es (put e.1 e.2 m)).
  rewrite IH, lookup_put. simpl.
  destruct (last_put es k); [done|]. by destruct (decide (e.1 = k)).
Qed.

Lemma puts_idempotent es m : puts es (puts es m) = puts es m.
Proof.
  apply map_eq. intros k. rewrite !puts_lookup. by destruct (last_put es k).
Qed.

Lemma puts_app es1 es2 m : puts (es1 ++ es2) m = puts es2 (puts es1 m).
Proof. apply foldl_app. Qed.

(** ** The emitter *)

Section Emitter.

Variable which : string -> option string.
Variable umask : Z.

Lemma bind_ret {A B} (a : A) (k : A -> M B) : bind (ret a) k = k a.
Proof. reflexivity. Qed.

Lemma bind_raise {A B} (e : exn) (k : A -> M B) : bind (raise e) k = raise e.
Proof. reflexivity. Qed.

Lemma quiet_remove_spec path w :
  quiet_remove path w = (Ok tt, set_fs (delete path) w).
Proof.
  unfold quiet_remove, try_except, os_remove.
  destruct (fs w !! path) eqn:E; [done|].
  unfold ret, set_fs. rewrite delete_id by done. by destruct w.
Qed.

Lemma bind_quiet_remove {B} path (k : unit -> M B) w :
  bind (quiet_remove path) k w = k tt (set_fs (delete path) w).
Proof. unfold bind. by rewrite quiet_remove_spec. Qed.

(** Writing the script to a path that has just been removed. *)
Lemma write_script_spec path text w :
  (open_w umask path;;
   st_mode <- os_stat_mode path;
   os_chmod path (Z.lor mode_0o111 st_mode);;
   file_write path text) (set_fs (delete path) w)
  = (Ok tt, set_fs (put path (Some (File text (script_mode umask)))) w).
Proof.
  unfold bind, open_w, os_stat_mode, os_chmod, file_write, set_fs; simpl.
  rewrite lookup_delete_eq; simpl.
  rewrite lookup_insert_eq; simpl.
  rewrite lookup_insert_eq; simpl.
  rewrite lookup_insert_eq; simpl.
  rewrite !insert_insert_eq, insert_delete_eq. reflexivity.
Qed.

Lemma symlink_spec path target w :
  os_symlink (Some target) path (set_fs (delete path) w)
  = (Ok tt, set_fs (put path (Some (Symlink target))) w).
Proof.
  unfold os_symlink, set_fs; simpl.
  rewrite lookup_delete_eq; simpl. by rewrite insert_delete_eq.
Qed.

Lemma wrap_tool_emitted tool config pfx info wraps w :
  prefix config = Some pfx ->
  arch_info config = Some info ->
  info !! "wraps" = Some wraps ->
  wrap_tool which umask tool config w =
    (fst (emitted which umask tool config info wraps),
     set_fs (put (wrapper_path pfx tool) (snd (emitted which umask tool config info wraps))) w).
Proof.
  intros Hp Hi Hw. unfold wrap_tool, emitted, emitted_for, classify. rewrite Hp, Hi.
  fold (normalize tool). generalize (normalize tool). intros canon.
  unfold getattr. rewrite !bind_ret. cbv beta.
  unfold getitem at 1. rewrite Hw, bind_ret. cbv beta zeta.
  fold (wrapper_path pfx tool). generalize (wrapper_path pfx tool). intros path.
  fold (quiet_remove path). rewrite bind_quiet_remove.
  destruct (bool_decide (canon ∈ BLACKLIST)); [reflexivity|].
  generalize (if absolute config || symlinks config
              then which (wraps +:+ "-" +:+ tool)
              else Some (wraps +:+ "-" +:+ tool)).
  intros exe.
  assert (Hlink : forall target : option string,
            os_symlink target path (set_fs (delete path) w) =
            (match target with
             | Some p => (Ok tt, Some (Symlink p))
             | None => (Raise TypeError, None)
             end.1,
             set_fs (put path match target with
                              | Some p => (Ok tt, Some (Symlink p))
                              | None => (Raise TypeError, None)
                              end.2) w)).
  { intros [p|]; [apply symlink_spec | reflexivity]. }
  destruct (dict_get FLAGS_INFO canon) as [fv|].
  - destruct (String.eqb_spec fv "") as [->|Hne]; rewrite ?bind_ret; cbv beta iota.
    + destruct (symlinks config); cbn [andb]; [apply Hlink | apply write_script_spec].
    + unfold getitem. destruct (info !! fv) as [flags|]; [|reflexivity].
      rewrite !bind_ret. cbv beta iota.
      destruct (symlinks config), (String.eqb flags ""); cbn [andb];
        first [apply Hlink | apply write_script_spec].
  - rewrite bind_ret. cbv beta iota.
    destruct (symlinks config); cbn [andb]; apply write_script_spec.
Qed.

Lemma script_mode_executable : Z.land (script_mode umask) mode_0o111 = mode_0o111.
Proof.
  unfold script_mode. rewrite <- Z.land_assoc.
  change (Z.land mode_0o7777 mode_0o111) with mode_0o111.
  apply Z.bits_inj'. intros n Hn.
  rewrite Z.land_spec, Z.lor_spec.
  destruct (Z.testbit mode_0o111 n); simpl; [done|]. apply andb_false_r.
Qed.

(** C6: a tool whose canonical name is blacklisted gets no wrapper: the call
    succeeds, whatever was at the tool's wrapper path is removed and nothing
    is written there or elsewhere. *)
Theorem blacklisted_tool_gets_no_wrapper
    (tool : string) (config : Namespace) (pfx : string)
    (info : gmap string string) (wraps : string) (w : World) :
  prefix config = Some pfx ->
  arch_info config = Some info ->
  info !! "wraps" = Some wraps ->
  normalize tool ∈ BLACKLIST ->
  wrap_tool which umask tool config w
    = (Ok tt, set_fs (delete (wrapper_path pfx tool)) w)
  /\ fs (wrap_tool which umask tool config w).2 !! wrapper_path pfx tool = None.
Proof.
  intros Hp Hi Hw Hbl.
  assert (wrap_tool which umask tool config w
          = (Ok tt, set_fs (delete (wrapper_path pfx tool)) w)) as Hrun.
  { rewrite (wrap_tool_emitted _ _ _ _ _ _ Hp Hi Hw).
    unfold emitted, emitted_for. by rewrite bool_decide_eq_true_2. }
  split; [done|]. rewrite Hrun. simpl. apply lookup_delete_eq.
Qed.

(** C3, amended: for a tool that is not blacklisted and whose canonical name
    has no known-safe entry, the call writes an executable script whose
    warning line names the tool by its canonical (normalised) name and points
    to the fixed feedback address, whether or not [--symlinks] (or
    [--absolute]) was given. *)
Theorem unknown_tool_warns_with_canonical_name
    (tool : string) (config : Namespace) (pfx : string)
    (info : gmap string string) (wraps : string) (w : World) :
  prefix config = Some pfx ->
  arch_info config = Some info ->
  info !! "wraps" = Some wraps ->
  classify (normalize tool) = Unknown ->
  normalize tool ∉ BLACKLIST ->
  exists exe : option string,
    wrap_tool which umask tool config w
      = (Ok tt,
         set_fs (insert (wrapper_path pfx tool)
                   (File (script_text (warning_msg (normalize tool)) exe "")
                         (script_mode umask))) w)
    /\ Z.land (script_mode umask) mode_0o111 = mode_0o111
    /\ warning_msg (normalize tool)
       = "echo "
         +:+ quote ("Warning: untested tool " +:+ dquote +:+ normalize tool
                    +:+ dquote +:+ ". Please report your results to "
                    +:+ "https://github.com/o11c/toolchain-arch-wrappers")
         +:+ " >&2".
Proof.
  intros Hp Hi Hw Hcls Hbl.
  rewrite (wrap_tool_emitted _ _ _ _ _ _ Hp Hi Hw).
  unfold emitted, emitted_for. rewrite bool_decide_eq_false_2 by done.
  rewrite Hcls. eexists. split; [reflexivity|].
  split; [apply script_mode_executable | reflexivity].
Qed.

(** C5: with [--symlinks], for an architecture of the table, a tool that is
    safe with no flags becomes a symbolic link to the executable the search
    path resolves; a tool with named flags or an unknown tool never becomes a
    link, and unless it is blacklisted it becomes an executable script. *)
Theorem symlink_only_for_safe_no_flags
    (tool : string) (config : Namespace) (pfx a : string)
    (info : gmap string string) (w : World) :
  prefix config = Some pfx ->
  ARCHES !! a = Some info ->
  arch_info config = Some info ->
  symlinks config = true ->
  let canon := normalize tool in
  let path := wrapper_path pfx tool in
  let ref := "x86_64-linux-gnu" +:+ "-" +:+ tool in
  (classify canon = SafeNoFlags ->
   forall target, which ref = Some target ->
     wrap_tool which umask tool config w
       = (Ok tt, set_fs (insert path (Symlink target)) w))
  /\ (classify canon <> SafeNoFlags ->
      (forall target,
         fs (wrap_tool which umask tool config w).2 !! path <> Some (Symlink target))
      /\ (canon ∉ BLACKLIST ->
          exists text,
            wrap_tool which umask tool config w
              = (Ok tt, set_fs (insert path (File text (script_mode umask))) w)
            /\ Z.land (script_mode umask) mode_0o111 = mode_0o111)).
Proof.
  intros Hp Ha Hi Hsym canon path ref.
  destruct (ARCHES_entries _ _ Ha) as (Hw & flags & Hfl & Hne).
  rewrite (wrap_tool_emitted _ _ _ _ _ _ Hp Hi Hw).
  unfold emitted, emitted_for. fold canon path ref.
  rewrite Hsym, orb_true_r. unfold classify.
  destruct (dict_get FLAGS_INFO canon) as [fv|] eqn:Hfv.
  - destruct (flags_var_values _ _ Hfv) as [Hval Hbl].
    rewrite bool_decide_eq_false_2 by done.
    destruct Hval as [-> | ->].
    + split; [|done]. intros _ target ->. reflexivity.
    + split; [done|]. intros _. change ("gcc_flags" =? "")%string with false.
      cbv iota. rewrite Hfl. apply String.eqb_neq in Hne. rewrite Hne. simpl.
      split; [by rewrite lookup_insert_eq|].
      intros _. eexists. split; [reflexivity | apply script_mode_executable].
  - split; [done|]. intros _.
    destruct (bool_decide (canon ∈ BLACKLIST)) eqn:Hb; simpl.
    + split; [by rewrite lookup_delete_eq|].
      by apply bool_decide_eq_true in Hb.
    + split; [by rewrite lookup_insert_eq|].
      intros _. eexists. split; [reflexivity | apply script_mode_executable].
Qed.

(** C7: the blacklist test and the classification see only the canonical
    name, the executable reference is built from the original name.  One call
    of [wrap_tool] is described by [emitted_for], which is given the
    canonical name for the former and [wraps-tool], with the tool as it was
    requested, for the latter.  ["gcc-ar"] normalises to ["ar"], and its
    reference is [wraps] followed by ["-gcc-ar"], which is not [wraps]
    followed by ["-ar"]. *)
Theorem classification_canonical_reference_original
    (tool : string) (config : Namespace) (pfx : string)
    (info : gmap string string) (wraps : string) (w : World) :
  prefix config = Some pfx ->
  arch_info config = Some info ->
  info !! "wraps" = Some wraps ->
  let canon := normalize tool in
  let ref := wraps +:+ "-" +:+ tool in
  wrap_tool which umask tool config w
    = ((emitted_for which umask canon ref config info).1,
       set_fs (put (wrapper_path pfx tool) (emitted_for which umask canon ref config info).2) w)
  /\ normalize "gcc-ar" = "ar"
  /\ (tool = "gcc-ar" ->
      canon = "ar" /\ ref = wraps +:+ "-gcc-ar" /\ ref <> wraps +:+ "-ar"
      /\ (absolute config = false -> symlinks config = false ->
          wrap_tool which umask tool config w
            = (Ok tt,
               set_fs (insert (wrapper_path pfx "gcc-ar")
                         (File (script_text (safe_msg "ar")
                                            (Some (wraps +:+ "-gcc-ar")) "")
                               (script_mode umask))) w))).
Proof.
  intros Hp Hi Hw canon ref.
  pose proof (wrap_tool_emitted tool _ _ _ _ w Hp Hi Hw) as Hrun.
  split; [exact Hrun|]. split; [vm_compute; reflexivity|].
  intros ->. subst canon ref.
  assert (normalize "gcc-ar" = "ar") as Hcanon by (vm_compute; reflexivity).
  split; [exact Hcanon|]. split; [reflexivity|].
  split; [intros H%append_cancel_l; discriminate H|].
  intros Habs Hsym. rewrite Hrun. unfold emitted, emitted_for.
  rewrite Hcanon, Habs, Hsym.
  destruct (bool_decide ("ar" ∈ BLACKLIST)) eqn:Hb; [vm_compute in Hb; discriminate Hb|].
  assert (classify "ar" = SafeNoFlags) as -> by (vm_compute; reflexivity).
  reflexivity.
Qed.

(** A failed lookup is not noticed on the script branch: with [--absolute]
    and without [--symlinks], when the search path does not have the wrapped
    executable, the script is written all the same and calls [None]. *)
Lemma failed_lookup_is_written tool config pfx info wraps w :
  prefix config = Some pfx ->
  arch_info config = Some info ->
  info !! "wraps" = Some wraps ->
  absolute config = true ->
  symlinks config = false ->
  which (wraps +:+ "-" +:+ tool) = None ->
  normalize tool ∉ BLACKLIST ->
  (forall fv, classify (normalize tool) = SafeNamedFlags fv -> is_Some (info !! fv)) ->
  exists msg flags,
    wrap_tool which umask tool config w
    = (Ok tt,
       set_fs (insert (wrapper_path pfx tool)
                 (File (script_text msg None flags) (script_mode umask))) w).
Proof.
  intros Hp Hi Hw Habs Hsym Hwhich Hbl Hflags.
  rewrite (wrap_tool_emitted _ _ _ _ _ _ Hp Hi Hw).
  unfold emitted, emitted_for.
  rewrite bool_decide_eq_false_2, Habs, Hsym, Hwhich by done.
  destruct (classify (normalize tool)) as [| |fv] eqn:Hcls;
    [by eexists _, _ | by eexists _, _ |].
  destruct (Hflags fv eq_refl) as [flags ->]. by eexists _, _.
Qed.

(** ** Whole runs *)

Lemma blind_pure {A} (c : M A) (r : outcome A) :
  (forall w, c w = (r, w)) -> blind c.
Proof.
  intros Hc. exists r, [], []. intros w. rewrite Hc. simpl.
  by rewrite app_nil_r.
Qed.

Lemma blind_put {A} (c : M A) (r : outcome A) k v :
  (forall w, c w = (r, set_fs (put k v) w)) -> blind c.
Proof.
  intros Hc. exists r, [(k, v)], []. intros w. rewrite Hc. simpl.
  by rewrite app_nil_r.
Qed.

Lemma blind_print line : blind (print line).
Proof. exists (Ok tt), [], [line]. intros w. done. Qed.

Lemma blind_bind {A B} (c : M A) (k : A -> M B) :
  blind c -> (forall a, blind (k a)) -> blind (bind c k).
Proof.
  intros (r & es & out & Hc) Hk. destruct r as [a|e].
  - destruct (Hk a) as (r' & es' & out' & Hka).
    exists r', (es ++ es')%list, (out ++ out')%list. intros w.
    destruct (Hc w) as (Hr & Hfs & Hout). unfold bind.
    destruct (c w) as [[a'|e'] w1]; simpl in *; [|done]. injection Hr as ->.
    destruct (Hka w1) as (Hr' & Hfs' & Hout').
    by rewrite Hr', Hfs', Hout', Hfs, Hout, puts_app, app_assoc.
  - exists (Raise e), es, out. intros w.
    destruct (Hc w) as (Hr & Hfs & Hout). unfold bind.
    destruct (c w) as [[a'|e'] w1]; simpl in *; [done|]. by injection Hr as ->.
Qed.

Lemma wrap_tool_blind tool config : blind (wrap_tool which umask tool config).
Proof.
  destruct (prefix config) as [pfx|] eqn:Hp;
    [destruct (arch_info config) as [info|] eqn:Hi;
     [destruct (info !! "wraps") as [wraps|] eqn:Hw|]|].
  - eapply blind_put. intros w. apply (wrap_tool_emitted _ _ _ _ _ _ Hp Hi Hw).
  - apply (blind_pure _ (Raise (KeyError "wraps"))). intros w.
    unfold wrap_tool. rewrite Hp, Hi. unfold getattr. rewrite !bind_ret.
    cbv beta. unfold getitem at 1. by rewrite Hw, bind_raise.
  - apply (blind_pure _ (Raise (AttributeError "arch_info"))). intros w.
    unfold wrap_tool. rewrite Hp, Hi. unfold getattr. rewrite bind_ret.
    cbv beta. by rewrite bind_raise.
  - apply (blind_pure _ (Raise (AttributeError "prefix"))). intros w.
    unfold wrap_tool. rewrite Hp. unfold getattr. by rewrite bind_raise.
Qed.

Lemma for_each_blind config ts :
  blind (for_each ts (fun tool => wrap_tool which umask tool config)).
Proof.
  induction ts as [|t ts IH]; simpl.
  - by apply (blind_pure _ (Ok tt)).
  - apply blind_bind; [apply wrap_tool_blind | intros _; exact IH].
Qed.

(** The two ways [wrap] goes on after the table lookup. *)
Lemma wrap_resolved config info :
  let config1 :=
    set_arch (apply_fixups (arch config) ARCH_FIXUPS)
             (set_prefix (arch config) config) in
  ARCHES !! arch config1 = Some info ->
  wrap which umask config =
    (for_each (requested config)
       (fun tool => wrap_tool which umask tool (set_arch_info info config1));;
     ret (set_arch_info info config1)).
Proof.
  intros config1 Hlook. unfold wrap. cbv zeta.
  change (set_arch
            (apply_fixups (arch (set_prefix (arch config) config)) ARCH_FIXUPS)
            (set_prefix (arch config) config)) with config1.
  unfold getitem. rewrite Hlook. reflexivity.
Qed.

Lemma wrap_unresolved config :
  let config1 :=
    set_arch (apply_fixups (arch config) ARCH_FIXUPS)
             (set_prefix (arch config) config) in
  ARCHES !! arch config1 = None ->
  wrap which umask config =
    (print ("Arch " +:+ arch config1 +:+ " not found");;
     for_each (requested config)
       (fun tool => wrap_tool which umask tool config1);;
     ret config1).
Proof.
  intros config1 Hlook. unfold wrap. cbv zeta.
  change (set_arch
            (apply_fixups (arch (set_prefix (arch config) config)) ARCH_FIXUPS)
            (set_prefix (arch config) config)) with config1.
  unfold getitem. rewrite Hlook. reflexivity.
Qed.

Lemma main_blind a ts abs sym : blind (main which umask a ts abs sym).
Proof.
  unfold main.
  set (config := parse_args a ts abs sym).
  set (config1 := set_arch (apply_fixups (arch config) ARCH_FIXUPS)
                           (set_prefix (arch config) config)).
  apply blind_bind; [|intros c; by apply (blind_pure _ (Ok tt))].
  destruct (ARCHES !! arch config1) as [info|] eqn:Hlook.
  - rewrite (wrap_resolved config info Hlook).
    apply blind_bind; [apply for_each_blind|].
    intros _. by eapply blind_pure.
  - rewrite (wrap_unresolved config Hlook).
    apply blind_bind; [apply blind_print|]. intros _.
    apply blind_bind; [apply for_each_blind|].
    intros _. by eapply blind_pure.
Qed.

(** C9: running the generator a second time with the same command line, the
    same search path and the same umask leaves the output directory exactly
    as the first run left it (same paths, same texts, link targets and
    permission bits), and the second run ends the way the first did. *)
Theorem rerun_leaves_same_artifacts
    (a : string) (ts : list string) (abs sym : bool) (w : World) :
  let run := main which umask a ts abs sym in
  fs (run (run w).2).2 = fs (run w).2
  /\ (run (run w).2).1 = (run w).1.
Proof.
  intros run. destruct (main_blind a ts abs sym) as (r & es & out & Hrun).
  fold run in Hrun.
  destruct (Hrun w) as (Hr1 & Hfs1 & _).
  destruct (Hrun (run w).2) as (Hr2 & Hfs2 & _).
  split; [|congruence].
  by rewrite Hfs2, Hfs1, puts_idempotent.
Qed.

(** C1: when the normalised architecture has no entry in [ARCHES], the run
    prints the normalised triple and ends with an uncaught exception raised
    for the first tool, before anything is removed from or written to the
    output directory. *)
Theorem unresolved_arch_is_fatal
    (a : string) (ts : list string) (abs sym : bool) (w : World) :
  ARCHES !! apply_fixups a ARCH_FIXUPS = None ->
  main which umask a ts abs sym w
    = (Raise (AttributeError "arch_info"),
       mkWorld (fs w)
               (stdout w ++ ["Arch " +:+ apply_fixups a ARCH_FIXUPS +:+ " not found"])).
Proof.
  intros Hlook. unfold main.
  rewrite (wrap_unresolved (parse_args a ts abs sym) Hlook).
  cbn [arch set_arch set_prefix parse_args].
  assert (exists t rest, requested (parse_args a ts abs sym) = t :: rest)
    as (t & rest & ->).
  { destruct ts as [|t rest]; [by eexists _, _ | by exists t, rest]. }
  reflexivity.
Qed.

(** The observable side of the resolution: with the architecture ["i686-pc-linux-gnu"] and
    the tool ["gcc"] the run writes one script, under the prefix as it was
    given, that calls the wrapped toolchain's compiler with [-m32]. *)
Lemma i686_gcc_wrapper (w : World) :
  main which umask "i686-pc-linux-gnu" ["gcc"] false false w
    = (Ok tt,
       set_fs (insert "bin/i686-pc-linux-gnu-gcc"
                 (File (script_text (safe_msg "gcc")
                                    (Some "x86_64-linux-gnu-gcc") "-m32")
                       (script_mode umask))) w).
Proof.
  unfold main.
  assert (ARCHES !! apply_fixups "i686-pc-linux-gnu" ARCH_FIXUPS
          = Some (list_to_map [ ("wraps", "x86_64-linux-gnu"); ("gcc_flags", "-m32") ]))
    as Hlook by (vm_compute; reflexivity).
  rewrite (wrap_resolved (parse_args "i686-pc-linux-gnu" ["gcc"] false false) _ Hlook).
  cbn [requested tools parse_args for_each].
  set (config := set_arch_info _ _).
  assert (wrap_tool which umask "gcc" config w
          = (Ok tt,
             set_fs (insert "bin/i686-pc-linux-gnu-gcc"
                       (File (script_text (safe_msg "gcc")
                                (Some "x86_64-linux-gnu-gcc") "-m32")
                             (script_mode umask))) w)) as Htool.
  { rewrite (wrap_tool_emitted "gcc" config "i686-pc-linux-gnu" _ "x86_64-linux-gnu" w
               eq_refl eq_refl);
      [|vm_compute; reflexivity].
    unfold emitted, emitted_for.
    replace (normalize "gcc") with "gcc" by (vm_compute; reflexivity).
    destruct (bool_decide ("gcc" ∈ BLACKLIST)) eqn:Hb;
      [vm_compute in Hb; discriminate Hb|].
    replace (classify "gcc") with (SafeNamedFlags "gcc_flags")
      by (vm_compute; reflexivity).
    replace (_ !! "gcc_flags") with (Some "-m32") by (vm_compute; reflexivity).
    reflexivity. }
  unfold bind. rewrite Htool. reflexivity.
Qed.

(** C8: the three architecture fixups are applied in the order of the table
    (drop [-pc-], drop [-unknown-], turn a leading [i486-], [i586-] or
    [i686-] into [i386-]) and the result is looked up as it is;
    ["i686-pc-linux-gnu"] resolves to the entry that wraps
    ["x86_64-linux-gnu"] with the flags ["-m32"], ["x86_64-linux-gnux32"] to
    the entry that wraps ["x86_64-linux-gnu"] with ["-mx32"]. *)
Theorem arch_resolution_examples :
  (forall s,
     apply_fixups s ARCH_FIXUPS
     = re_sub re_i386 (ReplStr "i386-")
         (re_sub re_unknown (ReplStr "-") (re_sub re_pc (ReplStr "-") s)))
  /\ re_sub re_pc (ReplStr "-") "i686-pc-linux-gnu" = "i686-linux-gnu"
  /\ re_sub re_unknown (ReplStr "-") "i686-linux-gnu" = "i686-linux-gnu"
  /\ re_sub re_i386 (ReplStr "i386-") "i686-linux-gnu" = "i386-linux-gnu"
  /\ (exists info,
        resolve "i686-pc-linux-gnu" = Some info
        /\ ARCHES !! "i386-linux-gnu" = Some info
        /\ info !! "wraps" = Some "x86_64-linux-gnu"
        /\ info !! "gcc_flags" = Some "-m32")
  /\ (exists info,
        resolve "x86_64-linux-gnux32" = Some info
        /\ ARCHES !! "x86_64-linux-gnux32" = Some info
        /\ info !! "wraps" = Some "x86_64-linux-gnu"
        /\ info !! "gcc_flags" = Some "-mx32").
Proof.
  split; [reflexivity|].
  repeat (split; [vm_compute; reflexivity|]).
  split.
  - exists (list_to_map [ ("wraps", "x86_64-linux-gnu"); ("gcc_flags", "-m32") ]).
    repeat split; vm_compute; reflexivity.
  - exists (list_to_map [ ("wraps", "x86_64-linux-gnu"); ("gcc_flags", "-mx32") ]).
    repeat split; vm_compute; reflexivity.
Qed.

End Emitter.

Section RunSummary.

Variable which : string -> option string.
Variable umask : Z.

(** A loop over tools with a resolved configuration: paths of no listed tool
    are left alone, and when the loop completes every listed tool's path
    holds what [emitted] says for that tool. *)
Lemma for_each_summary config pfx info wraps ts :
  prefix config = Some pfx ->
  arch_info config = Some info ->
  info !! "wraps" = Some wraps ->
  forall w,
    let res := for_each ts (fun tool => wrap_tool which umask tool config) w in
    (forall k, (forall t, t ∈ ts -> wrapper_path pfx t <> k) ->
               fs res.2 !! k = fs w !! k)
    /\ (res.1 = Ok tt ->
        forall t, t ∈ ts ->
          fs res.2 !! wrapper_path pfx t = (emitted which umask t config info wraps).2)
    /\ stdout res.2 = stdout w.
Proof.
  intros Hp Hi Hw. induction ts as [|t ts IH]; intros w res.
  - split; [done|]. split; [|done]. intros _ t Ht. by apply elem_of_nil in Ht.
  - subst res. cbn [for_each]. unfold bind at 1 2 3 4.
    rewrite (wrap_tool_emitted which umask t _ _ _ _ w Hp Hi Hw).
    destruct (emitted which umask t config info wraps) as [[[]|e] v] eqn:Hem;
      cbn [fst snd].
    + specialize (IH (set_fs (put (wrapper_path pfx t) v) w)).
      cbv zeta in IH. destruct IH as (Hother & Hlisted & Hout).
      split; [|split].
      * intros k Hk. rewrite Hother by (intros t' Ht'; apply Hk; by right).
        cbn [set_fs fs]. rewrite lookup_put, decide_False; [done|].
        apply Hk. by left.
      * intros Hok t' Ht'. destruct (decide (t' ∈ ts)) as [Hin|Hnin].
        { by apply Hlisted. }
        apply elem_of_cons in Ht' as [->|Ht']; [|done].
        rewrite Hother.
        -- cbn [set_fs fs]. by rewrite lookup_put, decide_True, Hem.
        -- intros t' Ht' Heq%wrapper_path_inj. by subst t'.
      * exact Hout.
    + split; [|split; [done|done]].
      intros k Hk. cbn [set_fs fs]. rewrite lookup_put, decide_False; [done|].
      apply Hk. by left.
Qed.

(** A completed run for a table architecture: each requested tool's wrapper
    path holds what [emitted_for] says for it, any other path is as it was. *)
Lemma run_summary a ts abs sym info w :
  let config :=
    set_arch_info info
      (set_arch (apply_fixups a ARCH_FIXUPS)
                (set_prefix a (parse_args a ts abs sym))) in
  let res := main which umask a ts abs sym w in
  resolve a = Some info ->
  res.1 = Ok tt ->
  (forall t, t ∈ requested (parse_args a ts abs sym) ->
     fs res.2 !! wrapper_path a t
     = (emitted_for which umask (normalize t) ("x86_64-linux-gnu" +:+ "-" +:+ t)
          config info).2)
  /\ (forall k, (forall t, t ∈ requested (parse_args a ts abs sym) ->
                           wrapper_path a t <> k) ->
                fs res.2 !! k = fs w !! k).
Proof.
  intros config res Hres Hok. subst res. unfold main in *.
  rewrite (wrap_resolved which umask (parse_args a ts abs sym) info Hres) in *.
  destruct (ARCHES_entries _ _ Hres) as (Hw & _).
  destruct (for_each_summary config a info "x86_64-linux-gnu"
              (requested (parse_args a ts abs sym)) eq_refl eq_refl Hw w)
    as (Hother & Hlisted & _).
  fold config in Hok |- *.
  unfold bind in Hok |- *.
  destruct (for_each _ _ w) as [[[]|e] w1]; cbn [fst snd] in *; [|done].
  split; [|exact Hother]. intros t Ht. by apply Hlisted.
Qed.

(** After a completed run no requested tool with a blacklisted canonical
    name has anything at its wrapper path. *)
Lemma blacklisted_after_run a ts abs sym info w tool :
  resolve a = Some info ->
  (main which umask a ts abs sym w).1 = Ok tt ->
  tool ∈ requested (parse_args a ts abs sym) ->
  normalize tool ∈ BLACKLIST ->
  fs (main which umask a ts abs sym w).2 !! wrapper_path a tool = None.
Proof.
  intros Hres Hok Hin Hbl.
  destruct (run_summary a ts abs sym info w Hres Hok) as [Hlisted _].
  rewrite (Hlisted tool Hin). unfold emitted_for.
  by rewrite bool_decide_eq_true_2.
Qed.

End RunSummary.

(** ** Concrete runs *)

(** C3, as stated, fails: ["gold"] has no known-safe entry under its
    canonical name ["ld"], and the warning in its script names ["ld"];
    ["pkg-config"] has no entry either and, being blacklisted, gets no script
    at all. *)
Lemma unknown_tool_warning_counterexample :
  ~ warns_with_original_name no_path umask_022 "gold" (config_i386 false false)
      "i386-linux-gnu" empty_world
  /\ ~ warns_with_original_name no_path umask_022 "pkg-config"
        (config_i386 false false) "i386-linux-gnu" empty_world.
Proof.
  split; intros (exe & flags & mode & H);
    rewrite (wrap_tool_emitted no_path umask_022 _ (config_i386 false false)
               "i386-linux-gnu" info_i386 "x86_64-linux-gnu" empty_world
               eq_refl eq_refl) in H by (vm_compute; reflexivity);
    cbn [snd set_fs fs] in H; rewrite lookup_put in H;
    rewrite decide_True in H by reflexivity;
    vm_compute in H; discriminate H.
Qed.

(** What the script for ["gold"] says. *)
Lemma gold_script :
  wrap_tool no_path umask_022 "gold" (config_i386 false false) empty_world
  = (Ok tt,
     mkWorld {[ "bin/i386-linux-gnu-gold" :=
                  File (script_text (warning_msg "ld")
                                    (Some "x86_64-linux-gnu-gold") "") 493 ]} []).
Proof. vm_compute. reflexivity. Qed.

(** C4, as the script behaves: with [--absolute], when the search path does
    not have the wrapped compiler, the run still succeeds and writes a script
    for ["gcc"] whose exec line calls [None]. *)
Theorem unresolved_executable_is_written :
  main no_path umask_022 "i386-linux-gnu" ["gcc"] true false empty_world
  = (Ok tt,
     mkWorld {[ "bin/i386-linux-gnu-gcc" :=
                  File (script_text (safe_msg "gcc") None "-m32") 493 ]} [])
  /\ script_text (safe_msg "gcc") None "-m32"
     = "#!/bin/sh" +:+ nl
       +:+ "# tool " +:+ dquote +:+ "gcc" +:+ dquote +:+ " is believed to be safe" +:+ nl
       +:+ "exec None -m32 " +:+ dquote +:+ "$@" +:+ dquote +:+ nl.
Proof. split; vm_compute; reflexivity. Qed.

(** With [--symlinks] and a tool that would become a link, the same failed
    lookup ends the run with a [TypeError] and leaves nothing at the path. *)
Lemma unresolved_link_raises :
  main no_path umask_022 "i386-linux-gnu" ["ar"] false true empty_world
  = (Raise TypeError, empty_world).
Proof. vm_compute. reflexivity. Qed.

Lemma unresolved_arch_is_fatal_witness :
  ARCHES !! apply_fixups "mips-linux-gnu" ARCH_FIXUPS = None
  /\ main usr_bin umask_022 "mips-linux-gnu" ["gcc"] false false empty_world
     = (Raise (AttributeError "arch_info"),
        mkWorld (fs empty_world)
                (stdout empty_world
                 ++ ["Arch " +:+ apply_fixups "mips-linux-gnu" ARCH_FIXUPS
                     +:+ " not found"])).
Proof.
  split; [vm_compute; reflexivity|].
  apply (unresolved_arch_is_fatal usr_bin umask_022 "mips-linux-gnu" ["gcc"]
           false false empty_world).
  vm_compute. reflexivity.
Defined.

Lemma blacklisted_tool_gets_no_wrapper_witness :
  prefix (config_i386 false false) = Some "i386-linux-gnu"
  /\ arch_info (config_i386 false false) = Some info_i386
  /\ info_i386 !! "wraps" = Some "x86_64-linux-gnu"
  /\ (normalize "pkg-config" ∈ BLACKLIST)
  /\ (wrap_tool usr_bin umask_022 "pkg-config" (config_i386 false false) empty_world
      = (Ok tt, set_fs (delete (wrapper_path "i386-linux-gnu" "pkg-config")) empty_world)
      /\ fs (wrap_tool usr_bin umask_022 "pkg-config" (config_i386 false false)
               empty_world).2
         !! wrapper_path "i386-linux-gnu" "pkg-config" = None).
Proof.
  assert (normalize "pkg-config" ∈ BLACKLIST) as Hbl
    by (refine (bool_decide_unpack _ _); vm_compute; exact I).
  assert (info_i386 !! "wraps" = Some "x86_64-linux-gnu") as Hw
    by (vm_compute; reflexivity).
  do 4 (split; [first [reflexivity | exact Hw | exact Hbl]|]).
  exact (blacklisted_tool_gets_no_wrapper usr_bin umask_022 "pkg-config"
           (config_i386 false false) "i386-linux-gnu" info_i386
           "x86_64-linux-gnu" empty_world eq_refl eq_refl Hw Hbl).
Defined.

Lemma unknown_tool_warns_with_canonical_name_witness :
  prefix (config_i386 false true) = Some "i386-linux-gnu"
  /\ arch_info (config_i386 false true) = Some info_i386
  /\ info_i386 !! "wraps" = Some "x86_64-linux-gnu"
  /\ classify (normalize "gold") = Unknown
  /\ (normalize "gold" ∉ BLACKLIST)
  /\ exists exe : option string,
       wrap_tool usr_bin umask_022 "gold" (config_i386 false true) empty_world
       = (Ok tt,
          set_fs (insert (wrapper_path "i386-linux-gnu" "gold")
                    (File (script_text (warning_msg (normalize "gold")) exe "")
                          (script_mode umask_022))) empty_world)
       /\ Z.land (script_mode umask_022) mode_0o111 = mode_0o111
       /\ warning_msg (normalize "gold")
          = "echo "
            +:+ quote ("Warning: untested tool " +:+ dquote +:+ normalize "gold"
                       +:+ dquote +:+ ". Please report your results to "
                       +:+ "https://github.com/o11c/toolchain-arch-wrappers")
            +:+ " >&2".
Proof.
  assert (normalize "gold" ∉ BLACKLIST) as Hbl
    by (refine (proj1 (bool_decide_eq_false _) _); vm_compute; reflexivity).
  assert (info_i386 !! "wraps" = Some "x86_64-linux-gnu") as Hw
    by (vm_compute; reflexivity).
  assert (classify (normalize "gold") = Unknown) as Hcls
    by (vm_compute; reflexivity).
  do 5 (split; [first [reflexivity | exact Hw | exact Hbl | exact Hcls]|]).
  exact (unknown_tool_warns_with_canonical_name usr_bin umask_022 "gold"
           (config_i386 false true) "i386-linux-gnu" info_i386
           "x86_64-linux-gnu" empty_world eq_refl eq_refl Hw Hcls Hbl).
Defined.

Lemma symlink_only_for_safe_no_flags_witness :
  prefix (config_i386 false true) = Some "i386-linux-gnu"
  /\ ARCHES !! "i386-linux-gnu" = Some info_i386
  /\ arch_info (config_i386 false true) = Some info_i386
  /\ symlinks (config_i386 false true) = true
  /\ classify (normalize "ar") = SafeNoFlags
  /\ usr_bin ("x86_64-linux-gnu" +:+ "-" +:+ "ar") = Some "/usr/bin/x86_64-linux-gnu-ar"
  /\ wrap_tool usr_bin umask_022 "ar" (config_i386 false true) empty_world
     = (Ok tt,
        set_fs (insert (wrapper_path "i386-linux-gnu" "ar")
                  (Symlink "/usr/bin/x86_64-linux-gnu-ar")) empty_world).
Proof.
  assert (ARCHES !! "i386-linux-gnu" = Some info_i386) as Ha
    by (vm_compute; reflexivity).
  assert (classify (normalize "ar") = SafeNoFlags) as Hcls
    by (vm_compute; reflexivity).
  do 6 (split; [first [reflexivity | exact Ha | exact Hcls]|]).
  exact (proj1 (symlink_only_for_safe_no_flags usr_bin umask_022 "ar"
                  (config_i386 false true) "i386-linux-gnu" "i386-linux-gnu"
                  info_i386 empty_world eq_refl Ha eq_refl eq_refl)
           Hcls "/usr/bin/x86_64-linux-gnu-ar" eq_refl).
Defined.

Lemma classification_canonical_reference_original_witness :
  prefix (config_i386 false false) = Some "i386-linux-gnu"
  /\ arch_info (config_i386 false false) = Some info_i386
  /\ info_i386 !! "wraps" = Some "x86_64-linux-gnu"
  /\ wrap_tool usr_bin umask_022 "gcc-ar" (config_i386 false false) empty_world
     = (Ok tt,
        set_fs (insert (wrapper_path "i386-linux-gnu" "gcc-ar")
                  (File (script_text (safe_msg "ar")
                           (Some ("x86_64-linux-gnu" +:+ "-gcc-ar")) "")
                        (script_mode umask_022))) empty_world).
Proof.
  assert (info_i386 !! "wraps" = Some "x86_64-linux-gnu") as Hw
    by (vm_compute; reflexivity).
  do 3 (split; [first [reflexivity | exact Hw]|]).
  pose proof (classification_canonical_reference_original usr_bin umask_022
                "gcc-ar" (config_i386 false false) "i386-linux-gnu" info_i386
                "x86_64-linux-gnu" empty_world eq_refl eq_refl Hw) as H.
  cbv zeta in H. destruct H as (_ & _ & H).
  destruct (H eq_refl) as (_ & _ & _ & Hrun).
  exact (Hrun eq_refl eq_refl).
Defined.

(** * Further properties *)

(** ** The name normaliser, pass after pass *)

Lemma collapse_ld_fixed_or_shorter s :
  collapse_ld s = s \/ String.length (collapse_ld s) < String.length s.
Proof.
  unfold collapse_ld, re_ld. rewrite re_sub_anchored. unfold match_at. simpl.
  repeat next_char; first [by left | right; lia].
Qed.

Lemma collapse_gcc_fixed_or_shorter s :
  collapse_gcc s = s \/ String.length (collapse_gcc s) < String.length s.
Proof.
  unfold collapse_gcc, re_gcc_binutils. rewrite re_sub_anchored.
  unfold match_at. simpl.
  repeat next_char; first [by left | right; lia].
Qed.

Lemma normalize_pass_shrinks (s : string) :
  normalize s = s \/ String.length (normalize s) < String.length s.
Proof.
  rewrite normalize_rules.
  destruct (strip_version_length s) as [Hle Heq].
  pose proof (collapse_ld_length (strip_version s)) as Hld.
  pose proof (collapse_gcc_length (collapse_ld (strip_version s))) as Hgcc.
  destruct (Nat.eq_dec (String.length (strip_version s)) (String.length s))
    as [Hsame|Hdiff]; [|right; lia].
  rewrite (Heq Hsame).
  destruct (collapse_ld_fixed_or_shorter s) as [->|Hlt].
  - apply collapse_gcc_fixed_or_shorter.
  - right. pose proof (collapse_gcc_length (collapse_ld s)). lia.
Qed.

(** X1: A pass of the normaliser that changes the name makes it strictly
    shorter, so normalising again and again reaches a name that a further
    pass leaves alone, after at most as many passes as the name has
    characters. *)
Theorem normalize_reaches_fixed_point (s : string) :
  (normalize s = s \/ String.length (normalize s) < String.length s)
  /\ exists n, n <= String.length s
       /\ normalize (Nat.iter n normalize s) = Nat.iter n normalize s.
Proof.
  split; [apply normalize_pass_shrinks|].
  remember (String.length s) as len eqn:Hlen.
  assert (String.length s <= len) as Hbound by lia. clear Hlen.
  revert s Hbound. induction len as [|len IH]; intros s Hbound.
  - exists 0. split; [lia|]. simpl.
    destruct (normalize_pass_shrinks s) as [H|H]; [done|lia].
  - destruct (normalize_pass_shrinks s) as [Hfix|Hlt].
    + exists 0. split; [lia | exact Hfix].
    + destruct (IH (normalize s)) as (n & Hn & Hfixed); [lia|].
      exists (S n). split; [lia|].
      by rewrite !Nat.iter_succ_r.
Qed.

(** X2: The normaliser never returns one of the six alias names its last two
    rules collapse, so [FLAGS_INFO] is never looked up under ["gcc-ar"],
    ["gcc-nm"] or ["gcc-ranlib"], keys the table does have. *)
Theorem normalize_never_returns_alias (s : string) :
  ~ In (normalize s) ["gold"; "ld.bfd"; "ld.gold"; "gcc-ar"; "gcc-nm"; "gcc-ranlib"].
Proof.
  rewrite normalize_rules. generalize (strip_version s). clear s. intros s.
  assert (Hld : ~ In (collapse_ld s) ["gold"; "ld.bfd"; "ld.gold"]).
  { unfold collapse_ld, re_ld. rewrite re_sub_anchored. unfold match_at. simpl.
    repeat next_char; intros [H|[H|[H|[]]]]; vm_compute in H; congruence. }
  generalize dependent (collapse_ld s). clear s. intros s Hld.
  unfold collapse_gcc, re_gcc_binutils. rewrite re_sub_anchored.
  unfold match_at. simpl in *.
  repeat next_char; intros [H|[H|[H|[H|[H|[H|[]]]]]]];
    first [apply Hld; rewrite <- H; simpl; tauto | vm_compute in H; congruence].
Qed.

(** ** One call of [wrap_tool] *)

Section OneCall.

Variable which : string -> option string.
Variable umask : Z.

(** Every namespace is complete or makes the call fail at once. *)
Lemma wrap_tool_cases tool config w :
  (exists pfx info wraps,
     prefix config = Some pfx /\ arch_info config = Some info
     /\ info !! "wraps" = Some wraps)
  \/ (exists e, wrap_tool which umask tool config w = (Raise e, w)).
Proof.
  destruct (prefix config) as [pfx|] eqn:Hp;
    [destruct (arch_info config) as [info|] eqn:Hi;
     [destruct (info !! "wraps") as [wraps|] eqn:Hw|]|].
  - left. by exists pfx, info, wraps.
  - right. exists (KeyError "wraps").
    unfold wrap_tool. rewrite Hp, Hi. unfold getattr. rewrite !bind_ret.
    cbv beta. unfold getitem at 1. by rewrite Hw, bind_raise.
  - right. exists (AttributeError "arch_info").
    unfold wrap_tool. rewrite Hp, Hi. unfold getattr. rewrite bind_ret.
    cbv beta. by rewrite bind_raise.
  - right. exists (AttributeError "prefix").
    unfold wrap_tool. rewrite Hp. unfold getattr. by rewrite bind_raise.
Qed.

(** X3: A namespace that [wrap] has not completed: no [prefix], no
    [arch_info], or an [arch_info] without the key [wraps].  The call fails
    on the missing piece before it removes or writes anything. *)
Theorem wrap_tool_incomplete_config
    (tool : string) (config : Namespace) (w : World) :
  prefix config = None
  \/ arch_info config = None
  \/ (exists info, arch_info config = Some info /\ info !! "wraps" = None) ->
  exists e,
    wrap_tool which umask tool config w = (Raise e, w)
    /\ (e = AttributeError "prefix" \/ e = AttributeError "arch_info"
        \/ e = KeyError "wraps").
Proof.
  intros Hmissing. unfold wrap_tool.
  destruct (prefix config) as [pfx|] eqn:Hp;
    [|exists (AttributeError "prefix"); split; [reflexivity | tauto]].
  unfold getattr at 1. rewrite bind_ret. cbv beta.
  destruct (arch_info config) as [info|] eqn:Hi;
    [|exists (AttributeError "arch_info"); split; [reflexivity | tauto]].
  unfold getattr. rewrite bind_ret. cbv beta.
  destruct Hmissing as [H|[H|(info' & [= <-] & Hw)]]; [done|done|].
  exists (KeyError "wraps"). split; [|tauto].
  unfold getitem at 1. by rewrite Hw, bind_raise.
Qed.

(** X4: A call leaves every path other than the tool's wrapper path, and the
    standard output, as they were, however it ends. *)
Theorem wrap_tool_touches_only_its_path
    (tool : string) (config : Namespace) (w : World) (k : string) :
  (forall pfx, prefix config = Some pfx -> k <> wrapper_path pfx tool) ->
  fs (wrap_tool which umask tool config w).2 !! k = fs w !! k
  /\ stdout (wrap_tool which umask tool config w).2 = stdout w.
Proof.
  intros Hk.
  destruct (wrap_tool_cases tool config w)
    as [(pfx & info & wraps & Hp & Hi & Hw) | (e & ->)]; [|done].
  rewrite (wrap_tool_emitted which umask _ _ _ _ _ _ Hp Hi Hw).
  cbn [snd set_fs fs stdout]. split; [|done].
  rewrite lookup_put, decide_False; [done|]. intros Heq. by apply (Hk pfx).
Qed.

(** X5: How a call ends does not depend on what the output directory holds, and
    neither does what it leaves at the wrapper path once the namespace is
    complete: a stale wrapper, or none, makes no difference. *)
Theorem wrap_tool_ignores_directory
    (tool : string) (config : Namespace) (w1 w2 : World) :
  (wrap_tool which umask tool config w1).1 = (wrap_tool which umask tool config w2).1
  /\ (forall pfx info wraps,
        prefix config = Some pfx -> arch_info config = Some info ->
        info !! "wraps" = Some wraps ->
        fs (wrap_tool which umask tool config w1).2 !! wrapper_path pfx tool
        = fs (wrap_tool which umask tool config w2).2 !! wrapper_path pfx tool).
Proof.
  split.
  - destruct (wrap_tool_cases tool config w1)
      as [(pfx & info & wraps & Hp & Hi & Hw) | (e & He)].
    + by rewrite !(wrap_tool_emitted which umask _ _ _ _ _ _ Hp Hi Hw).
    + destruct (wrap_tool_cases tool config w2)
        as [(pfx & info & wraps & Hp & Hi & Hw) | (e' & He')].
      * by rewrite !(wrap_tool_emitted which umask _ _ _ _ _ _ Hp Hi Hw).
      * pose proof (wrap_tool_blind which umask tool config) as (r & es & out & Hb).
        destruct (Hb w1) as (<- & _). destruct (Hb w2) as (<- & _). done.
  - intros pfx info wraps Hp Hi Hw.
    rewrite !(wrap_tool_emitted which umask _ _ _ _ _ _ Hp Hi Hw).
    cbn [snd set_fs fs]. by rewrite !lookup_put, !decide_True.
Qed.

(** X6: A tool whose entry names a flag set that the architecture's entry does
    not have: the stale wrapper is removed, then the lookup raises
    [KeyError] and nothing is written. *)
Theorem wrap_tool_missing_flag_set
    (tool : string) (config : Namespace) (pfx : string)
    (info : gmap string string) (wraps fv : string) (w : World) :
  prefix config = Some pfx ->
  arch_info config = Some info ->
  info !! "wraps" = Some wraps ->
  normalize tool ∉ BLACKLIST ->
  classify (normalize tool) = SafeNamedFlags fv ->
  info !! fv = None ->
  wrap_tool which umask tool config w
    = (Raise (KeyError fv), set_fs (delete (wrapper_path pfx tool)) w).
Proof.
  intros Hp Hi Hw Hbl Hcls Hfv.
  rewrite (wrap_tool_emitted which umask _ _ _ _ _ _ Hp Hi Hw).
  unfold emitted, emitted_for.
  by rewrite bool_decide_eq_false_2, Hcls, Hfv.
Qed.

Lemma classify_named canon fv :
  classify canon = SafeNamedFlags fv -> fv = "gcc_flags" /\ canon ∉ BLACKLIST.
Proof.
  unfold classify. destruct (dict_get FLAGS_INFO canon) as [fv'|] eqn:Hget; [|done].
  destruct (flags_var_values _ _ Hget) as [[-> | ->] Hbl]; [done|].
  by intros [= <-].
Qed.

Lemma classify_no_flags canon :
  classify canon = SafeNoFlags -> canon ∉ BLACKLIST.
Proof.
  unfold classify. destruct (dict_get FLAGS_INFO canon) as [fv'|] eqn:Hget; [|done].
  by destruct (flags_var_values _ _ Hget) as [_ Hbl].
Qed.

(** X7: For an architecture of the table, a tool classified with a named flag
    set always gets a script, with or without [--symlinks] and [--absolute]:
    its second line is the acknowledgment for the canonical name, its exec
    line carries the architecture's [gcc_flags], which are not empty. *)
Theorem flagged_tool_gets_flags
    (tool : string) (config : Namespace) (pfx a fv : string)
    (info : gmap string string) (w : World) :
  prefix config = Some pfx ->
  ARCHES !! a = Some info ->
  arch_info config = Some info ->
  classify (normalize tool) = SafeNamedFlags fv ->
  exists flags exe,
    info !! "gcc_flags" = Some flags /\ flags <> ""
    /\ exe = (if absolute config || symlinks config
              then which ("x86_64-linux-gnu" +:+ "-" +:+ tool)
              else Some ("x86_64-linux-gnu" +:+ "-" +:+ tool))
    /\ wrap_tool which umask tool config w
       = (Ok tt,
          set_fs (insert (wrapper_path pfx tool)
                    (File (script_text (safe_msg (normalize tool)) exe flags)
                          (script_mode umask))) w).
Proof.
  intros Hp Ha Hi Hcls.
  destruct (ARCHES_entries _ _ Ha) as (Hw & flags & Hfl & Hne).
  destruct (classify_named _ _ Hcls) as [-> Hbl].
  exists flags. eexists. split; [exact Hfl|]. split; [exact Hne|].
  split; [reflexivity|].
  rewrite (wrap_tool_emitted which umask _ _ _ _ _ _ Hp Hi Hw).
  unfold emitted, emitted_for.
  rewrite bool_decide_eq_false_2, Hcls, Hfl by done.
  apply String.eqb_neq in Hne. rewrite Hne, andb_false_r. reflexivity.
Qed.

End OneCall.

(** X8: Without [--absolute] and [--symlinks] the search path is never
    consulted: two search paths give the same call. *)
Theorem wrap_tool_without_lookup
    (which1 which2 : string -> option string) (umask : Z)
    (tool : string) (config : Namespace) (w : World) :
  absolute config = false ->
  symlinks config = false ->
  wrap_tool which1 umask tool config w = wrap_tool which2 umask tool config w.
Proof.
  intros Habs Hsym. unfold wrap_tool. rewrite Habs, Hsym. reflexivity.
Qed.

(** ** Whole runs, further *)

Section Runs.

Variable which : string -> option string.
Variable umask : Z.

Lemma for_each_ext {A} (l : list A) (f g : A -> M unit) :
  (forall x w, f x w = g x w) -> forall w, for_each l f w = for_each l g w.
Proof.
  intros Hfg. induction l as [|x l IH]; intros w; [done|].
  cbn [for_each]. unfold bind. rewrite Hfg.
  destruct (g x w) as [[[]|e] w1]; [apply IH | done].
Qed.

(** [wrap_tool] reads four attributes of the namespace. *)
Lemma wrap_tool_ext tool config1 config2 w :
  prefix config1 = prefix config2 ->
  arch_info config1 = arch_info config2 ->
  absolute config1 = absolute config2 ->
  symlinks config1 = symlinks config2 ->
  wrap_tool which umask tool config1 w = wrap_tool which umask tool config2 w.
Proof.
  intros Hp Hi Habs Hsym. unfold wrap_tool. by rewrite Hp, Hi, Habs, Hsym.
Qed.

(** With a complete namespace the loop completes exactly when every tool's
    call does. *)
Lemma for_each_outcome config pfx info wraps ts w :
  prefix config = Some pfx ->
  arch_info config = Some info ->
  info !! "wraps" = Some wraps ->
  (for_each ts (fun tool => wrap_tool which umask tool config) w).1 = Ok tt
  <-> (forall t, t ∈ ts -> (emitted which umask t config info wraps).1 = Ok tt).
Proof.
  intros Hp Hi Hw. revert w. induction ts as [|t ts IH]; intros w.
  - split; [|done]. intros _ t Ht. by apply elem_of_nil in Ht.
  - cbn [for_each]. unfold bind.
    rewrite (wrap_tool_emitted which umask t _ _ _ _ w Hp Hi Hw).
    destruct (emitted which umask t config info wraps) as [[[]|e] v] eqn:Hem;
      cbn [fst snd].
    + rewrite IH. split.
      * intros Hall t' [->|Ht']%elem_of_cons; [by rewrite Hem | by apply Hall].
      * intros Hall t' Ht'. apply Hall. by right.
    + split; [done|]. intros Hall.
      specialize (Hall t (list_elem_of_here _ _)). by rewrite Hem in Hall.
Qed.

(** For an architecture of the table the only call that fails is the one
    that would make a link to an executable the search path does not have. *)
Lemma emitted_table_outcome a info canon ref config :
  ARCHES !! a = Some info ->
  (emitted_for which umask canon ref config info).1 = Ok tt
  <-> ~ (symlinks config = true /\ classify canon = SafeNoFlags /\ which ref = None).
Proof.
  intros Ha. destruct (ARCHES_entries _ _ Ha) as (Hw & flags & Hfl & Hne).
  apply String.eqb_neq in Hne. unfold emitted_for.
  destruct (bool_decide (canon ∈ BLACKLIST)) eqn:Hb.
  { apply bool_decide_eq_true in Hb. split; [|done].
    intros _ (_ & Hcls%classify_no_flags & _). done. }
  destruct (classify canon) as [| |fv] eqn:Hcls.
  - split; [|done]. by intros _ (_ & ? & _).
  - destruct (symlinks config); [|split; [by intros _ (? & _)|done]].
    rewrite orb_true_r. destruct (which ref); cbn [fst].
    + split; [|done]. by intros _ (_ & _ & ?).
    + split; [done|]. intros H. by destruct H.
  - destruct (classify_named _ _ Hcls) as [-> _]. rewrite Hfl, Hne, andb_false_r.
    split; [|done]. by intros _ (_ & ? & _).
Qed.

Lemma main_unresolved_outcome a ts abs sym w :
  resolve a = None ->
  (main which umask a ts abs sym w).1 = Raise (AttributeError "arch_info")
  /\ fs (main which umask a ts abs sym w).2 = fs w.
Proof.
  intros Hlook. unfold main.
  rewrite (wrap_unresolved which umask (parse_args a ts abs sym) Hlook).
  cbn [arch set_arch set_prefix parse_args].
  assert (exists t rest, requested (parse_args a ts abs sym) = t :: rest)
    as (t & rest & ->).
  { destruct ts as [|t rest]; [by eexists _, _ | by exists t, rest]. }
  split; reflexivity.
Qed.

Lemma main_resolved a ts abs sym info w :
  resolve a = Some info ->
  let config :=
    set_arch_info info
      (set_arch (apply_fixups a ARCH_FIXUPS)
                (set_prefix a (parse_args a ts abs sym))) in
  let loop := for_each (requested (parse_args a ts abs sym))
                (fun tool => wrap_tool which umask tool config) w in
  main which umask a ts abs sym w = (loop.1, loop.2).
Proof.
  intros Hres config loop. unfold main.
  rewrite (wrap_resolved which umask (parse_args a ts abs sym) info Hres).
  change (arch (parse_args a ts abs sym)) with a. fold config.
  unfold bind. fold loop. by destruct loop as [[[]|e] w1].
Qed.

(** X9: A run completes normally only for an architecture that resolves, and
    then it prints nothing. *)
Theorem completed_run_means_resolved
    (a : string) (ts : list string) (abs sym : bool) (w : World) :
  (main which umask a ts abs sym w).1 = Ok tt ->
  is_Some (resolve a)
  /\ stdout (main which umask a ts abs sym w).2 = stdout w.
Proof.
  intros Hok. destruct (resolve a) as [info|] eqn:Hres.
  - split; [by eexists|].
    rewrite (main_resolved a ts abs sym info w Hres). cbn [snd].
    destruct (ARCHES_entries _ _ Hres) as (Hw & _).
    by destruct (for_each_summary which umask
                   (set_arch_info info
                      (set_arch (apply_fixups a ARCH_FIXUPS)
                         (set_prefix a (parse_args a ts abs sym))))
                   a info "x86_64-linux-gnu"
                   (requested (parse_args a ts abs sym)) eq_refl eq_refl Hw w)
      as (_ & _ & Hout).
  - destruct (main_unresolved_outcome a ts abs sym w Hres) as [Hr _].
    rewrite Hr in Hok. discriminate Hok.
Qed.

(** X10: Whatever the architecture and however the run ends, a path that is not
    the wrapper path of a requested tool is left as it was. *)
Theorem run_touches_only_requested_paths
    (a : string) (ts : list string) (abs sym : bool) (w : World) (k : string) :
  (forall t, t ∈ requested (parse_args a ts abs sym) -> wrapper_path a t <> k) ->
  fs (main which umask a ts abs sym w).2 !! k = fs w !! k.
Proof.
  intros Hk. destruct (resolve a) as [info|] eqn:Hres.
  - rewrite (main_resolved a ts abs sym info w Hres). cbn [snd].
    destruct (ARCHES_entries _ _ Hres) as (Hw & _).
    destruct (for_each_summary which umask
                (set_arch_info info
                   (set_arch (apply_fixups a ARCH_FIXUPS)
                      (set_prefix a (parse_args a ts abs sym))))
                a info "x86_64-linux-gnu"
                (requested (parse_args a ts abs sym)) eq_refl eq_refl Hw w)
      as (Hother & _ & _).
    by apply Hother.
  - destruct (main_unresolved_outcome a ts abs sym w Hres) as [_ Hfs].
    by rewrite Hfs.
Qed.

(** X11: After a completed run each requested tool's wrapper path holds what
    [emitted_for] gives for that tool: nothing for a blacklisted tool, a link
    or a script otherwise; under the prefix as it was typed, not as it was
    normalised. *)
Theorem completed_run_artifacts
    (a : string) (ts : list string) (abs sym : bool)
    (info : gmap string string) (w : World) (t : string) :
  resolve a = Some info ->
  (main which umask a ts abs sym w).1 = Ok tt ->
  t ∈ requested (parse_args a ts abs sym) ->
  fs (main which umask a ts abs sym w).2 !! wrapper_path a t
  = (emitted_for which umask (normalize t) ("x86_64-linux-gnu" +:+ "-" +:+ t)
       (mkNamespace (apply_fixups a ARCH_FIXUPS) ts abs sym (Some a) (Some info))
       info).2.
Proof.
  intros Hres Hok Ht.
  destruct (run_summary which umask a ts abs sym info w Hres Hok) as [Hlisted _].
  by rewrite (Hlisted t Ht).
Qed.

(** X12: For an architecture of the table a run completes exactly when it makes
    no link to an executable the search path does not have: always without
    [--symlinks]; with [--symlinks], when every requested tool that is safe
    with no flags is found. *)
Theorem run_completion_criterion
    (a : string) (ts : list string) (abs sym : bool)
    (info : gmap string string) (w : World) :
  resolve a = Some info ->
  (main which umask a ts abs sym w).1 = Ok tt
  <-> (sym = false
       \/ forall t, t ∈ requested (parse_args a ts abs sym) ->
            classify (normalize t) = SafeNoFlags ->
            is_Some (which ("x86_64-linux-gnu" +:+ "-" +:+ t))).
Proof.
  intros Hres. rewrite (main_resolved a ts abs sym info w Hres). cbn [fst].
  destruct (ARCHES_entries _ _ Hres) as (Hw & _).
  rewrite (for_each_outcome
             (set_arch_info info
                (set_arch (apply_fixups a ARCH_FIXUPS)
                   (set_prefix a (parse_args a ts abs sym))))
             a info "x86_64-linux-gnu" _ w eq_refl eq_refl Hw).
  unfold emitted. split.
  - intros Hall. destruct sym; [right|by left]. intros t Ht Hcls.
    specialize (Hall t Ht). rewrite (emitted_table_outcome _ info _ _ _ Hres) in Hall.
    destruct (which _) eqn:Hwhich; [by eexists|]. by destruct Hall.
  - intros Hcrit t Ht. rewrite (emitted_table_outcome _ info _ _ _ Hres).
    cbn [symlinks set_arch_info set_arch set_prefix parse_args].
    intros (-> & Hcls & Hnone). destruct Hcrit as [|Hfound]; [done|].
    destruct (Hfound t Ht Hcls) as [p Hp]. congruence.
Qed.

(** X13: The loop stops at the first tool whose call raises: the tools listed
    after it are not processed. *)
Theorem loop_stops_at_first_failure
    (config : Namespace) (ts1 ts2 : list string) (t : string) (e : exn) (w : World) :
  let body := fun tool => wrap_tool which umask tool config in
  (for_each ts1 body w).1 = Ok tt ->
  (body t (for_each ts1 body w).2).1 = Raise e ->
  for_each (ts1 ++ t :: ts2) body w
  = (Raise e, (body t (for_each ts1 body w).2).2).
Proof.
  intros body. revert w. induction ts1 as [|t1 ts1 IH]; intros w Hok Hfail.
  - cbn [for_each app] in *. change ((@ret unit tt w).2) with w in *.
    unfold bind.
    destruct (body t w) as [[[]|e'] w1]; cbn [fst snd] in *;
      [discriminate Hfail | by injection Hfail as ->].
  - cbn [for_each app] in *. unfold bind in *.
    destruct (body t1 w) as [[[]|e'] w1]; [|done].
    by apply IH.
Qed.

End Runs.

Section RunsCompared.

Variable which : string -> option string.
Variable umask : Z.

Lemma main_unresolved a ts abs sym w :
  resolve a = None ->
  main which umask a ts abs sym w
  = (Raise (AttributeError "arch_info"),
     mkWorld (fs w)
             (stdout w ++ ["Arch " +:+ apply_fixups a ARCH_FIXUPS +:+ " not found"])).
Proof.
  intros Hlook. unfold main.
  rewrite (wrap_unresolved which umask (parse_args a ts abs sym) Hlook).
  cbn [arch set_arch set_prefix parse_args].
  assert (exists t rest, requested (parse_args a ts abs sym) = t :: rest)
    as (t & rest & ->).
  { destruct ts as [|t rest]; [by eexists _, _ | by exists t, rest]. }
  reflexivity.
Qed.

(** Two command lines with the same architecture whose tools are processed
    alike run alike. *)
Lemma main_congr a ts1 abs1 sym1 ts2 abs2 sym2 w :
  requested (parse_args a ts1 abs1 sym1) = requested (parse_args a ts2 abs2 sym2) ->
  (forall info tool w',
     wrap_tool which umask tool
       (mkNamespace (apply_fixups a ARCH_FIXUPS) ts1 abs1 sym1 (Some a) (Some info)) w'
     = wrap_tool which umask tool
         (mkNamespace (apply_fixups a ARCH_FIXUPS) ts2 abs2 sym2 (Some a) (Some info)) w') ->
  main which umask a ts1 abs1 sym1 w = main which umask a ts2 abs2 sym2 w.
Proof.
  intros Hreq Htool. destruct (resolve a) as [info|] eqn:Hres.
  - rewrite !(main_resolved which umask a _ _ _ info w Hres). cbv zeta.
    rewrite Hreq.
    by rewrite (for_each_ext _ _ _ (Htool info) w).
  - by rewrite !main_unresolved.
Qed.

(** X14: No tool on the command line is the whole catalogue on the command
    line. *)
Theorem no_tools_means_catalogue (a : string) (abs sym : bool) (w : World) :
  main which umask a [] abs sym w = main which umask a TOOLS abs sym w.
Proof.
  apply main_congr; [reflexivity|]. intros info tool w'.
  by apply wrap_tool_ext.
Qed.

(** X15: [--symlinks] implies [--absolute]: with [--symlinks] given, giving
    [--absolute] as well changes nothing. *)
Theorem symlinks_implies_absolute (a : string) (ts : list string) (w : World) :
  main which umask a ts true true w = main which umask a ts false true w.
Proof.
  apply main_congr; [reflexivity|]. intros info tool w'.
  unfold wrap_tool. cbn [prefix arch_info absolute symlinks]. reflexivity.
Qed.

(** X16: For completed runs the order of the tools and their repetitions do not
    matter: two tool lists with the same members leave the same directory. *)
Theorem tool_order_irrelevant
    (a : string) (ts1 ts2 : list string) (abs sym : bool)
    (info : gmap string string) (w : World) :
  resolve a = Some info ->
  (forall t, t ∈ requested (parse_args a ts1 abs sym)
             <-> t ∈ requested (parse_args a ts2 abs sym)) ->
  (main which umask a ts1 abs sym w).1 = Ok tt ->
  (main which umask a ts2 abs sym w).1 = Ok tt
  /\ fs (main which umask a ts2 abs sym w).2 = fs (main which umask a ts1 abs sym w).2.
Proof.
  intros Hres Hsame Hok1.
  destruct (ARCHES_entries _ _ Hres) as (Hw & _).
  set (config1 := set_arch_info info
                    (set_arch (apply_fixups a ARCH_FIXUPS)
                       (set_prefix a (parse_args a ts1 abs sym)))).
  set (config2 := set_arch_info info
                    (set_arch (apply_fixups a ARCH_FIXUPS)
                       (set_prefix a (parse_args a ts2 abs sym)))).
  assert (Hem : forall t, emitted which umask t config2 info "x86_64-linux-gnu"
                          = emitted which umask t config1 info "x86_64-linux-gnu")
    by reflexivity.
  rewrite (main_resolved which umask a ts1 abs sym info w Hres) in Hok1 |- *.
  rewrite (main_resolved which umask a ts2 abs sym info w Hres).
  cbv zeta in *. cbn [fst snd] in *. fold config1 in Hok1 |- *. fold config2.
  pose proof (for_each_outcome which umask config1 a info _
                (requested (parse_args a ts1 abs sym)) w eq_refl eq_refl Hw) as Hout1.
  pose proof (for_each_outcome which umask config2 a info _
                (requested (parse_args a ts2 abs sym)) w eq_refl eq_refl Hw) as Hout2.
  assert (Hok2 : (for_each (requested (parse_args a ts2 abs sym))
                    (fun tool => wrap_tool which umask tool config2) w).1 = Ok tt).
  { apply Hout2. intros t Ht. rewrite Hem. apply Hout1; [exact Hok1|].
    by apply Hsame. }
  split; [exact Hok2|].
  destruct (for_each_summary which umask config1 a info _
              (requested (parse_args a ts1 abs sym)) eq_refl eq_refl Hw w)
    as (Hother1 & Hlisted1 & _).
  destruct (for_each_summary which umask config2 a info _
              (requested (parse_args a ts2 abs sym)) eq_refl eq_refl Hw w)
    as (Hother2 & Hlisted2 & _).
  apply map_eq. intros k.
  destruct (decide (Exists (fun t => wrapper_path a t = k)
                      (requested (parse_args a ts1 abs sym)))) as [Hex|Hnex].
  - apply Exists_exists in Hex as (t & Ht & <-).
    rewrite (Hlisted1 Hok1 t Ht), (Hlisted2 Hok2 t) by (by apply Hsame).
    by rewrite Hem.
  - rewrite Exists_exists in Hnex.
    rewrite Hother1, Hother2; [done| |].
    + intros t Ht%Hsame Heq. apply Hnex. by exists t.
    + intros t Ht Heq. apply Hnex. by exists t.
Qed.

End RunsCompared.

(** ** The tables against each other *)

(** X17: Every key of [ARCHES] is a normal form of [ARCH_FIXUPS]: an
    architecture named as the table names it resolves to its own entry. *)
Theorem table_key_resolves (a : string) (info : gmap string string) :
  ARCHES !! a = Some info -> resolve a = Some info.
Proof.
  intros E. pose proof E as E'.
  apply elem_of_list_to_map_2 in E'. unfold ARCHES_items in E'.
  repeat (apply elem_of_cons in E' as [E'|E']; [injection E' as -> ->|]).
  - vm_compute. reflexivity.
  - vm_compute. reflexivity.
  - by apply elem_of_nil in E'.
Qed.

(** X18: The catalogue, the fixups, the blacklist and the flags table fit: every
    catalogue name normalises to a blacklisted name or to a key of
    [FLAGS_INFO], and every key of [FLAGS_INFO] other than the three
    [gcc-] aliases is the normal form of a catalogue name. *)
Theorem catalogue_covered :
  Forall (fun t => normalize t ∈ BLACKLIST \/ is_Some (FLAGS_INFO !! normalize t))
         TOOLS
  /\ Forall (fun k => In k ["gcc-ar"; "gcc-nm"; "gcc-ranlib"]
                      \/ Exists (fun t => normalize t = k) TOOLS)
            (FLAGS_INFO_items.*1).
Proof.
  split.
  - assert (forallb (fun t => bool_decide (normalize t ∈ BLACKLIST)
                              || bool_decide (is_Some (FLAGS_INFO !! normalize t)))
              TOOLS = true) as Hall by (vm_compute; reflexivity).
    apply Forall_forall. intros t Ht%list_elem_of_In.
    apply (proj1 (forallb_forall _ _) Hall) in Ht.
    apply orb_prop in Ht as [H|H]; apply bool_decide_eq_true in H; auto.
  - assert (forallb (fun k => existsb (String.eqb k) ["gcc-ar"; "gcc-nm"; "gcc-ranlib"]
                              || existsb (fun t => String.eqb (normalize t) k) TOOLS)
              (FLAGS_INFO_items.*1) = true) as Hall by (vm_compute; reflexivity).
    apply Forall_forall. intros k Hk%list_elem_of_In.
    apply (proj1 (forallb_forall _ _) Hall) in Hk.
    apply orb_prop in Hk as [H|H]; apply existsb_exists in H as (x & Hx & Heq);
      apply String.eqb_eq in Heq.
    + left. by subst x.
    + right. apply Exists_exists. exists x. split; [by apply list_elem_of_In|done].
Qed.

(** ** The script's lines and mode *)

Lemma string_app_assoc (a b c : string) : (a +:+ b) +:+ c = a +:+ (b +:+ c).
Proof.
  induction a as [|x a IH]; [done|].
  change (String x ((a +:+ b) +:+ c) = String x (a +:+ (b +:+ c))).
  by rewrite IH.
Qed.

Lemma escape_squotes_app (a b : string) :
  escape_squotes (a +:+ b) = escape_squotes a +:+ escape_squotes b.
Proof.
  induction a as [|c a IH]; [done|].
  change (String c a +:+ b) with (String c (a +:+ b)).
  change (escape_squotes (String c (a +:+ b)))
    with (if Ascii.eqb c "039"
          then squote +:+ dquote +:+ squote +:+ dquote +:+ squote
               +:+ escape_squotes (a +:+ b)
          else String c (escape_squotes (a +:+ b))).
  change (escape_squotes (String c a))
    with (if Ascii.eqb c "039"
          then squote +:+ dquote +:+ squote +:+ dquote +:+ squote
               +:+ escape_squotes a
          else String c (escape_squotes a)).
  rewrite IH. by destruct (Ascii.eqb c "039").
Qed.

(** X19: The warning line, whatever the tool name: the text is always inside
    single quotes, and of the text only the tool name can need escaping. *)
Theorem warning_msg_is_quoted (tool : string) :
  warning_msg tool
  = "echo " +:+ squote
    +:+ "Warning: untested tool " +:+ dquote +:+ escape_squotes tool +:+ dquote
    +:+ ". Please report your results to https://github.com/o11c/toolchain-arch-wrappers"
    +:+ squote +:+ " >&2".
Proof.
  unfold warning_msg, quote.
  replace (String.eqb (warning_text tool) "") with false by reflexivity.
  replace (all_safe (warning_text tool)) with false by reflexivity.
  unfold warning_text. rewrite !escape_squotes_app, !string_app_assoc.
  reflexivity.
Qed.

(** A name without a single quote is not changed by the escaping. *)
Theorem escape_squotes_plain (s : string) :
  (forall c, In c (list_ascii_of_string s) -> c <> "039"%char) ->
  escape_squotes s = s.
Proof.
  induction s as [|c s IH]; intros Hplain; [done|]. cbn [escape_squotes].
  destruct (Ascii.eqb_spec c "039") as [->|_].
  - exfalso. apply (Hplain "039"%char); [by left | done].
  - rewrite IH; [done|]. intros c' Hc'. apply Hplain. by right.
Qed.

(** X20: The mode of a written script: the execute bits for everyone whatever the
    umask, the read and write bits the umask lets through, and no other
    bit. *)
Theorem script_mode_bits (umask : Z) :
  script_mode umask = Z.lor mode_0o111 (Z.land mode_0o666 (Z.lnot umask))
  /\ (0 <= script_mode umask <= 0x1ff)%Z
  /\ Z.land (script_mode umask) (Z.land mode_0o666 umask) = 0%Z.
Proof.
  assert (Hmode : script_mode umask
                  = Z.lor mode_0o111 (Z.land mode_0o666 (Z.lnot umask))).
  { unfold script_mode, creat_mode. rewrite !Z.land_lor_distr_l.
    change (Z.land mode_0o111 mode_0o7777) with mode_0o111.
    change (Z.land S_IFREG mode_0o7777) with 0%Z. rewrite Z.lor_0_l.
    rewrite (Z.land_comm (Z.land mode_0o666 (Z.lnot umask))), Z.land_assoc.
    reflexivity. }
  split; [exact Hmode|]. rewrite Hmode. split.
  - assert (Hlow : Z.land (Z.lor mode_0o111 (Z.land mode_0o666 (Z.lnot umask)))
                          (Z.ones 9)
                   = Z.lor mode_0o111 (Z.land mode_0o666 (Z.lnot umask))).
    { rewrite Z.land_lor_distr_l.
      change (Z.land mode_0o111 (Z.ones 9)) with mode_0o111.
      rewrite (Z.land_comm (Z.land mode_0o666 (Z.lnot umask))), Z.land_assoc.
      reflexivity. }
    rewrite <- Hlow, Z.land_ones by lia.
    pose proof (Z.mod_pos_bound
                  (Z.lor mode_0o111 (Z.land mode_0o666 (Z.lnot umask))) (2 ^ 9)%Z).
    lia.
  - apply Z.bits_inj'. intros n Hn.
    rewrite !Z.land_spec, Z.lor_spec, Z.land_spec, Z.lnot_spec, Z.bits_0 by lia.
    pose proof (Z.land_spec mode_0o111 mode_0o666 n) as Hdisj.
    change (Z.land mode_0o111 mode_0o666) with 0%Z in Hdisj.
    rewrite Z.bits_0 in Hdisj.
    destruct (Z.testbit mode_0o111 n), (Z.testbit mode_0o666 n),
      (Z.testbit umask n); simpl in *; congruence.
Qed.

(** ** The further properties on concrete inputs *)

Lemma wrap_tool_incomplete_config_witness :
  (prefix (parse_args "i386-linux-gnu" [] false false) = None
   \/ arch_info (parse_args "i386-linux-gnu" [] false false) = None
   \/ (exists info, arch_info (parse_args "i386-linux-gnu" [] false false) = Some info
                    /\ info !! "wraps" = None))
  /\ exists e,
       wrap_tool usr_bin umask_022 "gcc" (parse_args "i386-linux-gnu" [] false false)
         empty_world = (Raise e, empty_world)
       /\ (e = AttributeError "prefix" \/ e = AttributeError "arch_info"
           \/ e = KeyError "wraps").
Proof.
  split; [left; reflexivity|].
  apply (wrap_tool_incomplete_config usr_bin umask_022 "gcc"
           (parse_args "i386-linux-gnu" [] false false) empty_world).
  left. reflexivity.
Defined.

Lemma wrap_tool_touches_only_its_path_witness :
  (forall pfx, prefix (config_i386 false false) = Some pfx ->
               "bin/README" <> wrapper_path pfx "gcc")
  /\ fs (wrap_tool usr_bin umask_022 "gcc" (config_i386 false false) empty_world).2
       !! "bin/README" = fs empty_world !! "bin/README"
  /\ stdout (wrap_tool usr_bin umask_022 "gcc" (config_i386 false false) empty_world).2
     = stdout empty_world.
Proof.
  assert (forall pfx, prefix (config_i386 false false) = Some pfx ->
                      "bin/README" <> wrapper_path pfx "gcc") as Hk.
  { intros pfx [= <-]. vm_compute. discriminate. }
  split; [exact Hk|].
  exact (wrap_tool_touches_only_its_path usr_bin umask_022 "gcc"
           (config_i386 false false) empty_world "bin/README" Hk).
Defined.

Lemma wrap_tool_missing_flag_set_witness :
  prefix config_no_flags = Some "plain-linux-gnu"
  /\ arch_info config_no_flags = Some info_no_flags
  /\ info_no_flags !! "wraps" = Some "x86_64-linux-gnu"
  /\ (normalize "gcc" ∉ BLACKLIST)
  /\ classify (normalize "gcc") = SafeNamedFlags "gcc_flags"
  /\ info_no_flags !! "gcc_flags" = None
  /\ wrap_tool usr_bin umask_022 "gcc" config_no_flags empty_world
     = (Raise (KeyError "gcc_flags"),
        set_fs (delete (wrapper_path "plain-linux-gnu" "gcc")) empty_world).
Proof.
  assert (info_no_flags !! "wraps" = Some "x86_64-linux-gnu") as Hw
    by (vm_compute; reflexivity).
  assert (normalize "gcc" ∉ BLACKLIST) as Hbl
    by (refine (proj1 (bool_decide_eq_false _) _); vm_compute; reflexivity).
  assert (classify (normalize "gcc") = SafeNamedFlags "gcc_flags") as Hcls
    by (vm_compute; reflexivity).
  assert (info_no_flags !! "gcc_flags" = None) as Hfv by (vm_compute; reflexivity).
  do 6 (split; [first [reflexivity | exact Hw | exact Hbl | exact Hcls | exact Hfv]|]).
  exact (wrap_tool_missing_flag_set usr_bin umask_022 "gcc" config_no_flags
           "plain-linux-gnu" info_no_flags "x86_64-linux-gnu" "gcc_flags"
           empty_world eq_refl eq_refl Hw Hbl Hcls Hfv).
Defined.

Lemma flagged_tool_gets_flags_witness :
  prefix (config_i386 false true) = Some "i386-linux-gnu"
  /\ ARCHES !! "i386-linux-gnu" = Some info_i386
  /\ arch_info (config_i386 false true) = Some info_i386
  /\ classify (normalize "g++") = SafeNamedFlags "gcc_flags"
  /\ exists flags exe,
       info_i386 !! "gcc_flags" = Some flags /\ flags <> ""
       /\ exe = (if absolute (config_i386 false true) || symlinks (config_i386 false true)
                 then usr_bin ("x86_64-linux-gnu" +:+ "-" +:+ "g++")
                 else Some ("x86_64-linux-gnu" +:+ "-" +:+ "g++"))
       /\ wrap_tool usr_bin umask_022 "g++" (config_i386 false true) empty_world
          = (Ok tt,
             set_fs (insert (wrapper_path "i386-linux-gnu" "g++")
                       (File (script_text (safe_msg (normalize "g++")) exe flags)
                             (script_mode umask_022))) empty_world).
Proof.
  assert (ARCHES !! "i386-linux-gnu" = Some info_i386) as Ha
    by (vm_compute; reflexivity).
  assert (classify (normalize "g++") = SafeNamedFlags "gcc_flags") as Hcls
    by (vm_compute; reflexivity).
  do 4 (split; [first [reflexivity | exact Ha | exact Hcls]|]).
  exact (flagged_tool_gets_flags usr_bin umask_022 "g++" (config_i386 false true)
           "i386-linux-gnu" "i386-linux-gnu" "gcc_flags" info_i386 empty_world
           eq_refl Ha eq_refl Hcls).
Defined.

Lemma wrap_tool_without_lookup_witness :
  absolute (config_i386 false false) = false
  /\ symlinks (config_i386 false false) = false
  /\ wrap_tool no_path umask_022 "gcc" (config_i386 false false) empty_world
     = wrap_tool usr_bin umask_022 "gcc" (config_i386 false false) empty_world.
Proof.
  do 2 (split; [reflexivity|]).
  exact (wrap_tool_without_lookup no_path usr_bin umask_022 "gcc"
           (config_i386 false false) empty_world eq_refl eq_refl).
Defined.

Lemma completed_run_means_resolved_witness :
  (main usr_bin umask_022 "i686-pc-linux-gnu" ["gcc"; "ar"] false true empty_world).1
    = Ok tt
  /\ is_Some (resolve "i686-pc-linux-gnu")
  /\ stdout (main usr_bin umask_022 "i686-pc-linux-gnu" ["gcc"; "ar"] false true
               empty_world).2 = stdout empty_world.
Proof.
  assert ((main usr_bin umask_022 "i686-pc-linux-gnu" ["gcc"; "ar"] false true
             empty_world).1 = Ok tt) as Hok by (vm_compute; reflexivity).
  split; [exact Hok|].
  exact (completed_run_means_resolved usr_bin umask_022 "i686-pc-linux-gnu"
           ["gcc"; "ar"] false true empty_world Hok).
Defined.

Lemma run_touches_only_requested_paths_witness :
  (forall t, t ∈ requested (parse_args "i386-linux-gnu" ["gcc"] false true) ->
             wrapper_path "i386-linux-gnu" t <> "bin/README")
  /\ fs (main no_path umask_022 "i386-linux-gnu" ["gcc"] false true empty_world).2
       !! "bin/README" = fs empty_world !! "bin/README".
Proof.
  assert (forall t, t ∈ requested (parse_args "i386-linux-gnu" ["gcc"] false true) ->
                    wrapper_path "i386-linux-gnu" t <> "bin/README") as Hk.
  { intros t Ht. cbn [requested parse_args tools] in Ht.
    apply list_elem_of_singleton in Ht as ->. vm_compute. discriminate. }
  split; [exact Hk|].
  exact (run_touches_only_requested_paths no_path umask_022 "i386-linux-gnu"
           ["gcc"] false true empty_world "bin/README" Hk).
Defined.

Lemma completed_run_artifacts_witness :
  resolve "i686-pc-linux-gnu" = Some info_i386
  /\ (main usr_bin umask_022 "i686-pc-linux-gnu" ["gcc"; "ar"] false true
        empty_world).1 = Ok tt
  /\ ("ar" ∈ requested (parse_args "i686-pc-linux-gnu" ["gcc"; "ar"] false true))
  /\ fs (main usr_bin umask_022 "i686-pc-linux-gnu" ["gcc"; "ar"] false true
           empty_world).2 !! wrapper_path "i686-pc-linux-gnu" "ar"
     = (emitted_for usr_bin umask_022 (normalize "ar")
          ("x86_64-linux-gnu" +:+ "-" +:+ "ar")
          (mkNamespace (apply_fixups "i686-pc-linux-gnu" ARCH_FIXUPS) ["gcc"; "ar"]
             false true (Some "i686-pc-linux-gnu") (Some info_i386))
          info_i386).2.
Proof.
  assert (resolve "i686-pc-linux-gnu" = Some info_i386) as Hres
    by (vm_compute; reflexivity).
  assert ((main usr_bin umask_022 "i686-pc-linux-gnu" ["gcc"; "ar"] false true
             empty_world).1 = Ok tt) as Hok by (vm_compute; reflexivity).
  assert ("ar" ∈ requested (parse_args "i686-pc-linux-gnu" ["gcc"; "ar"] false true))
    as Hin by (cbn [requested parse_args tools]; apply list_elem_of_further, list_elem_of_here).
  do 3 (split; [first [exact Hres | exact Hok | exact Hin]|]).
  exact (completed_run_artifacts usr_bin umask_022 "i686-pc-linux-gnu" ["gcc"; "ar"]
           false true info_i386 empty_world "ar" Hres Hok Hin).
Defined.

Lemma run_completion_criterion_witness :
  resolve "i386-linux-gnu" = Some info_i386
  /\ ((main no_path umask_022 "i386-linux-gnu" ["gcc"] true false empty_world).1 = Ok tt
      <-> (false = false
           \/ forall t, t ∈ requested (parse_args "i386-linux-gnu" ["gcc"] true false) ->
                classify (normalize t) = SafeNoFlags ->
                is_Some (no_path ("x86_64-linux-gnu" +:+ "-" +:+ t)))).
Proof.
  assert (resolve "i386-linux-gnu" = Some info_i386) as Hres
    by (vm_compute; reflexivity).
  split; [exact Hres|].
  exact (run_completion_criterion no_path umask_022 "i386-linux-gnu" ["gcc"]
           true false info_i386 empty_world Hres).
Defined.

Lemma loop_stops_at_first_failure_witness :
  (for_each ["gcc"]
     (fun tool => wrap_tool no_path umask_022 tool (config_i386 false true))
     empty_world).1 = Ok tt
  /\ (wrap_tool no_path umask_022 "ar" (config_i386 false true)
        (for_each ["gcc"]
           (fun tool => wrap_tool no_path umask_022 tool (config_i386 false true))
           empty_world).2).1 = Raise TypeError
  /\ for_each (["gcc"] ++ "ar" :: ["nm"])
       (fun tool => wrap_tool no_path umask_022 tool (config_i386 false true))
       empty_world
     = (Raise TypeError,
        (wrap_tool no_path umask_022 "ar" (config_i386 false true)
           (for_each ["gcc"]
              (fun tool => wrap_tool no_path umask_022 tool (config_i386 false true))
              empty_world).2).2).
Proof.
  assert ((for_each ["gcc"]
             (fun tool => wrap_tool no_path umask_022 tool (config_i386 false true))
             empty_world).1 = Ok tt) as Hok by (vm_compute; reflexivity).
  assert ((wrap_tool no_path umask_022 "ar" (config_i386 false true)
             (for_each ["gcc"]
                (fun tool => wrap_tool no_path umask_022 tool (config_i386 false true))
                empty_world).2).1 = Raise TypeError) as Hfail
    by (vm_compute; reflexivity).
  do 2 (split; [first [exact Hok | exact Hfail]|]).
  exact (loop_stops_at_first_failure no_path umask_022 (config_i386 false true)
           ["gcc"] ["nm"] "ar" TypeError empty_world Hok Hfail).
Defined.

Lemma tool_order_irrelevant_witness :
  resolve "i386-linux-gnu" = Some info_i386
  /\ (forall t, t ∈ requested (parse_args "i386-linux-gnu" ["gcc"; "ar"] false false)
                <-> t ∈ requested (parse_args "i386-linux-gnu" ["ar"; "gcc"; "ar"]
                                     false false))
  /\ (main no_path umask_022 "i386-linux-gnu" ["gcc"; "ar"] false false
        empty_world).1 = Ok tt
  /\ (main no_path umask_022 "i386-linux-gnu" ["ar"; "gcc"; "ar"] false false
        empty_world).1 = Ok tt
  /\ fs (main no_path umask_022 "i386-linux-gnu" ["ar"; "gcc"; "ar"] false false
           empty_world).2
     = fs (main no_path umask_022 "i386-linux-gnu" ["gcc"; "ar"] false false
             empty_world).2.
Proof.
  assert (resolve "i386-linux-gnu" = Some info_i386) as Hres
    by (vm_compute; reflexivity).
  assert (forall t, t ∈ requested (parse_args "i386-linux-gnu" ["gcc"; "ar"] false false)
                    <-> t ∈ requested (parse_args "i386-linux-gnu" ["ar"; "gcc"; "ar"]
                                         false false)) as Hsame.
  { intros t. cbn [requested parse_args tools]. rewrite !elem_of_cons. tauto. }
  assert ((main no_path umask_022 "i386-linux-gnu" ["gcc"; "ar"] false false
             empty_world).1 = Ok tt) as Hok by (vm_compute; reflexivity).
  do 3 (split; [first [exact Hres | exact Hsame | exact Hok]|]).
  exact (tool_order_irrelevant no_path umask_022 "i386-linux-gnu" ["gcc"; "ar"]
           ["ar"; "gcc"; "ar"] false false info_i386 empty_world Hres Hsame Hok).
Defined.

Lemma table_key_resolves_witness :
  ARCHES !! "x86_64-linux-gnux32"
    = Some (list_to_map [ ("wraps", "x86_64-linux-gnu"); ("gcc_flags", "-mx32") ])
  /\ resolve "x86_64-linux-gnux32"
     = Some (list_to_map [ ("wraps", "x86_64-linux-gnu"); ("gcc_flags", "-mx32") ]).
Proof.
  assert (ARCHES !! "x86_64-linux-gnux32"
          = Some (list_to_map [ ("wraps", "x86_64-linux-gnu"); ("gcc_flags", "-mx32") ]))
    as Ha by (vm_compute; reflexivity).
  split; [exact Ha|].
  exact (table_key_resolves "x86_64-linux-gnux32" _ Ha).
Defined.
